(** * OSRM query core: road classification, plugin dispatch, search storage

    A shallow embedding of
    - the road classification header, include guard
      [OSRM_EXTRACTOR_CLASSIFICATION_DATA_HPP_] (road priorities, the
      packed [RoadClassification] value and the turn-obviousness
      heuristics),
    - [Library/OSRM.cpp] (the plugin registry and [RunQuery]),
    - [DataStructures/SearchEngineData.h] (the thread-local search heaps),
    together with the properties of these functions. *)

From Stdlib Require Import ZArith QArith Bool List Sorted Lia.
From stdpp Require Import gmap strings list fin_maps pretty.

(* ===================================================================== *)
(** ** Road priorities *)
(* ===================================================================== *)

(** [RoadPriorityClass::Enum] is [std::uint8_t]; the constants are the ones
    of the header. *)
Module RoadPriorityClass.

Definition Enum : Type := Z.

#[local] Open Scope Z_scope.

Definition MOTORWAY : Enum := 0.
Definition MOTORWAY_LINK : Enum := 1.
Definition TRUNK : Enum := 2.
Definition TRUNK_LINK : Enum := 3.
Definition PRIMARY : Enum := 4.
Definition PRIMARY_LINK : Enum := 5.
Definition SECONDARY : Enum := 6.
Definition SECONDARY_LINK : Enum := 7.
Definition TERTIARY : Enum := 8.
Definition TERTIARY_LINK : Enum := 9.
Definition MAIN_RESIDENTIAL : Enum := 10.
Definition SIDE_RESIDENTIAL : Enum := 11.
Definition ALLEY : Enum := 12.
Definition PARKING : Enum := 13.
Definition LINK_ROAD : Enum := 14.
Definition BIKE_PATH : Enum := 16.
Definition FOOT_PATH : Enum := 18.
Definition CONNECTIVITY : Enum := 31.

End RoadPriorityClass.

(* ===================================================================== *)
(** ** The packed road classification *)
(* ===================================================================== *)

(** The three one-bit fields are kept as [bool] (the header only ever tests
    them against 0); [road_priority_class] is a 5-bit field and
    [number_of_lanes] a byte, both kept as [Z] with the truncation written
    out where a value is stored. *)
Record RoadClassification : Type := mkRoadClassification {
  motorway_class : bool;
  link_class : bool;
  may_be_ignored : bool;
  road_priority_class : Z;
  number_of_lanes : Z
}.

(** Storing into a bit-field of [w] bits keeps the low [w] bits. *)
Definition truncate_bits (w : Z) (v : Z) : Z := (v mod 2 ^ w)%Z.

(** [RoadClassification()] *)
Definition RoadClassification_default : RoadClassification :=
  {| motorway_class := false;
     link_class := false;
     may_be_ignored := false;
     road_priority_class := truncate_bits 5 RoadPriorityClass.CONNECTIVITY;
     number_of_lanes := 0%Z |}.

(** [RoadClassification(motorway_class, link_class, may_be_ignored,
    road_priority_class, number_of_lanes)] *)
Definition RoadClassification_make (motorway link ignorable : bool)
    (priority : RoadPriorityClass.Enum) (lanes : Z) : RoadClassification :=
  {| motorway_class := motorway;
     link_class := link;
     may_be_ignored := ignorable;
     road_priority_class := truncate_bits 5 (truncate_bits 8 priority);
     number_of_lanes := truncate_bits 8 lanes |}.

(** Values a [RoadClassification] object can hold. *)
Definition RoadClassification_wf (r : RoadClassification) : Prop :=
  (0 <= road_priority_class r < 32)%Z ∧ (0 <= number_of_lanes r < 256)%Z.

Definition IsMotorwayClass (r : RoadClassification) : bool := motorway_class r.

Definition SetMotorwayFlag (new_value : bool) (r : RoadClassification) : RoadClassification :=
  {| motorway_class := new_value;
     link_class := link_class r;
     may_be_ignored := may_be_ignored r;
     road_priority_class := road_priority_class r;
     number_of_lanes := number_of_lanes r |}.

Definition IsRampClass (r : RoadClassification) : bool :=
  motorway_class r && link_class r.

Definition IsLinkClass (r : RoadClassification) : bool := link_class r.

Definition SetLinkClass (new_value : bool) (r : RoadClassification) : RoadClassification :=
  {| motorway_class := motorway_class r;
     link_class := new_value;
     may_be_ignored := may_be_ignored r;
     road_priority_class := road_priority_class r;
     number_of_lanes := number_of_lanes r |}.

Definition IsLowPriorityRoadClass (r : RoadClassification) : bool := may_be_ignored r.

Definition SetLowPriorityFlag (new_value : bool) (r : RoadClassification) : RoadClassification :=
  {| motorway_class := motorway_class r;
     link_class := link_class r;
     may_be_ignored := new_value;
     road_priority_class := road_priority_class r;
     number_of_lanes := number_of_lanes r |}.

Definition GetNumberOfLanes (r : RoadClassification) : Z := number_of_lanes r.

Definition SetNumberOfLanes (new_value : Z) (r : RoadClassification) : RoadClassification :=
  {| motorway_class := motorway_class r;
     link_class := link_class r;
     may_be_ignored := may_be_ignored r;
     road_priority_class := road_priority_class r;
     number_of_lanes := truncate_bits 8 new_value |}.

(** [GetPriority] widens the field to [std::uint32_t]. *)
Definition GetPriority (r : RoadClassification) : Z := road_priority_class r.

Definition GetClass (r : RoadClassification) : RoadPriorityClass.Enum :=
  road_priority_class r.

Definition SetClass (new_value : RoadPriorityClass.Enum) (r : RoadClassification)
    : RoadClassification :=
  {| motorway_class := motorway_class r;
     link_class := link_class r;
     may_be_ignored := may_be_ignored r;
     road_priority_class := truncate_bits 5 (truncate_bits 8 new_value);
     number_of_lanes := number_of_lanes r |}.

(** [operator==]: the lane count takes no part. *)
Definition RoadClassification_eqb (a b : RoadClassification) : bool :=
  Bool.eqb (motorway_class a) (motorway_class b)
  && Bool.eqb (link_class a) (link_class b)
  && Bool.eqb (may_be_ignored a) (may_be_ignored b)
  && (road_priority_class a =? road_priority_class b)%Z.

(** [operator!=] *)
Definition RoadClassification_neqb (a b : RoadClassification) : bool :=
  negb (RoadClassification_eqb a b).

(** [std::to_string] of the priority, which is promoted to [int]: its
    decimal digits. *)
Definition to_string (v : Z) : string := pretty v.

(** [ToString] *)
Definition ToString (r : RoadClassification) : string :=
  "" +:+ (if motorway_class r then "motorway" else "normal")
     +:+ (if link_class r then "_link" else "")
     +:+ (if may_be_ignored r then " ignorable " else " important ")
     +:+ to_string (road_priority_class r).

(* ===================================================================== *)
(** ** Heuristics over classifications *)
(* ===================================================================== *)

Definition canBeSeenAsFork (first second : RoadClassification) : bool :=
  (Z.abs (GetPriority first - GetPriority second) <=? 1)%Z.

(** [std::upper_bound] over a sorted range: the position of the first
    element that is greater than [value], the length when there is none. *)
Fixpoint upper_bound (range : list Z) (value : Z) : nat :=
  match range with
  | [] => O
  | d :: rest => if (value <? d)%Z then O else S (upper_bound rest value)
  end.

Definition num_dividers : nat := 6.

Definition dividers : list RoadPriorityClass.Enum :=
  [ RoadPriorityClass.TRUNK_LINK;
    RoadPriorityClass.SECONDARY_LINK;
    RoadPriorityClass.SIDE_RESIDENTIAL;
    RoadPriorityClass.ALLEY;
    RoadPriorityClass.PARKING;
    RoadPriorityClass.CONNECTIVITY ].

(** The two iterators point into the same array, so comparing them is
    comparing positions. *)
Definition strictlyLess (lhs rhs : RoadClassification) : bool :=
  let lhs_class := upper_bound (firstn num_dividers dividers) (GetPriority lhs) in
  let rhs_class := upper_bound (firstn num_dividers dividers) (GetPriority rhs) in
  (lhs_class <? rhs_class)%nat.

(** The band of a priority as the specification words it: the dividers are
    inclusive ends of a class, so a priority belongs to the first divider
    that is not below it. *)
Fixpoint band_index_of (ends : list Z) (priority : Z) : nat :=
  match ends with
  | [] => O
  | d :: rest => if (priority <=? d)%Z then O else S (band_index_of rest priority)
  end.

Definition band_index (r : RoadClassification) : nat :=
  band_index_of dividers (GetPriority r).

Definition isLinkTo (link road : RoadClassification) : bool :=
  if negb (IsLinkClass link) || IsLinkClass road then false
  else
    let p := GetPriority link in
    if (p =? RoadPriorityClass.MOTORWAY_LINK)%Z then
      (GetPriority road =? RoadPriorityClass.MOTORWAY)%Z
    else if (p =? RoadPriorityClass.TRUNK_LINK)%Z then
      (GetPriority road =? RoadPriorityClass.TRUNK)%Z
    else if (p =? RoadPriorityClass.PRIMARY_LINK)%Z then
      (GetPriority road =? RoadPriorityClass.PRIMARY)%Z
    else if (p =? RoadPriorityClass.SECONDARY_LINK)%Z then
      (GetPriority road =? RoadPriorityClass.SECONDARY)%Z
    else if (p =? RoadPriorityClass.TERTIARY_LINK)%Z then
      (GetPriority road =? RoadPriorityClass.TERTIARY)%Z
    else false.

(** [x < y] on rationals, as a boolean. *)
Definition Qltb (x y : Q) : bool := (Qnum x * QDen y <? Qnum y * QDen x)%Z.

Section Obviousness.

(** [PRIORITY_DISTINCTION_FACTOR] is declared in
    [extractor/guidance/constants.hpp], which is not among the sources
    here; it is a numeric constant and is taken as a rational parameter. *)
Variable PRIORITY_DISTINCTION_FACTOR : Q.

Definition obviousByRoadClass
    (in_classification obvious_candidate compare_candidate : RoadClassification) : bool :=
  if IsMotorwayClass in_classification && IsMotorwayClass obvious_candidate
     && IsRampClass compare_candidate
  then true
  else
    let passing_ramp :=
      IsRampClass compare_candidate && negb (IsMotorwayClass in_classification)
      && negb (IsRampClass in_classification) in
    if negb (IsMotorwayClass in_classification) && negb (IsMotorwayClass obvious_candidate)
       && negb (IsLinkClass in_classification) && negb (IsLinkClass obvious_candidate)
       && negb (IsRampClass compare_candidate) && IsLinkClass compare_candidate
    then true
    else
      let has_high_priority :=
        Qltb (PRIORITY_DISTINCTION_FACTOR * inject_Z (GetPriority obvious_candidate))
             (inject_Z (GetPriority compare_candidate))
        && negb (IsRampClass compare_candidate) in
      let continues_on_same_class :=
        RoadClassification_eqb in_classification obvious_candidate in
      (has_high_priority && continues_on_same_class && negb passing_ramp)
      || (negb (IsLowPriorityRoadClass obvious_candidate)
          && negb (IsLowPriorityRoadClass in_classification)
          && IsLowPriorityRoadClass compare_candidate).

(** [obviousByRoadClass] with the [!passing_ramp] conjunct of its last
    [return] left out, everything else as above. *)
Definition obviousByRoadClass_without_passing_ramp
    (in_classification obvious_candidate compare_candidate : RoadClassification) : bool :=
  if IsMotorwayClass in_classification && IsMotorwayClass obvious_candidate
     && IsRampClass compare_candidate
  then true
  else
    if negb (IsMotorwayClass in_classification) && negb (IsMotorwayClass obvious_candidate)
       && negb (IsLinkClass in_classification) && negb (IsLinkClass obvious_candidate)
       && negb (IsRampClass compare_candidate) && IsLinkClass compare_candidate
    then true
    else
      let has_high_priority :=
        Qltb (PRIORITY_DISTINCTION_FACTOR * inject_Z (GetPriority obvious_candidate))
             (inject_Z (GetPriority compare_candidate))
        && negb (IsRampClass compare_candidate) in
      let continues_on_same_class :=
        RoadClassification_eqb in_classification obvious_candidate in
      (has_high_priority && continues_on_same_class)
      || (negb (IsLowPriorityRoadClass obvious_candidate)
          && negb (IsLowPriorityRoadClass in_classification)
          && IsLowPriorityRoadClass compare_candidate).

Definition obviousByRoadClassOld
    (in_classification obvious_candidate compare_candidate : RoadClassification) : bool :=
  let first_priority :=
    if IsLinkClass obvious_candidate then RoadPriorityClass.LINK_ROAD
    else GetPriority obvious_candidate in
  let second_priority :=
    if IsLinkClass compare_candidate then RoadPriorityClass.LINK_ROAD
    else GetPriority compare_candidate in
  let has_high_priority :=
    Qltb (PRIORITY_DISTINCTION_FACTOR * inject_Z first_priority) (inject_Z second_priority) in
  let continues_on_same_class :=
    RoadClassification_eqb in_classification obvious_candidate in
  (has_high_priority && continues_on_same_class)
  || (negb (IsLowPriorityRoadClass obvious_candidate)
      && negb (IsLowPriorityRoadClass in_classification)
      && IsLowPriorityRoadClass compare_candidate).

End Obviousness.

(* ===================================================================== *)
(** ** Requests and replies *)
(* ===================================================================== *)

Module http.

(** Modelled from the spec: the header that declares [http::Reply] is not
    among the sources. A reply carries a status (ok, bad-request, other
    stock statuses) and a body. *)
Inductive status_type : Type :=
  | ok
  | badRequest
  | internalServerError.

Record Reply : Type := mkReply {
  status : status_type;
  content : string
}.

Definition set_status (s : status_type) (r : Reply) : Reply :=
  {| status := s; content := content r |}.

End http.

(** Modelled from the spec: [RouteParameters] is declared outside the
    sources. A request carries the service name that selects the plugin,
    and plugin-specific parameters the dispatcher never looks at. *)
Record RouteParameters (PluginParameters : Type) : Type := mkRouteParameters {
  service : string;
  parameters : PluginParameters
}.

Arguments mkRouteParameters {PluginParameters} _ _.
Arguments service {PluginParameters} _.
Arguments parameters {PluginParameters} _.

(* ===================================================================== *)
(** ** The dispatcher *)
(* ===================================================================== *)

Section Dispatcher.

Context {PluginParameters : Type}.

(** The text of the stock replies is declared with [http::Reply]; it is a
    parameter. *)
Variable stock_content : http.status_type -> string.

(** Modelled from the spec: [http::Reply::stockReply] is the fixed canned
    reply for a status. *)
Definition stockReply (s : http.status_type) : http.Reply :=
  {| http.status := s; http.content := stock_content s |}.

(** [BasePlugin]: the descriptor is the registry key, the handler fills in
    the reply it is handed. *)
Record BasePlugin : Type := mkBasePlugin {
  GetDescriptor : string;
  HandleRequest : RouteParameters PluginParameters -> http.Reply -> http.Reply
}.

(** [BasePlugin *] *)
Definition plugin_ptr : Type := positive.

(** The dispatcher together with the plugin objects it points to.
    [objects] holds the plugin objects that are alive; [delete] removes one.
    [log] are the lines written through [SimpleLogger], [handled] the
    [HandleRequest] calls made so far, oldest first. *)
Record OSRM : Type := mkOSRM {
  plugin_map : gmap string plugin_ptr;
  objects : gmap plugin_ptr BasePlugin;
  log : list string;
  handled : list plugin_ptr
}.

(** Using an object that is not alive is undefined behaviour: [None]. *)
Definition deref (p : plugin_ptr) (d : OSRM) : option BasePlugin := objects d !! p.

(** [delete p] *)
Definition delete_plugin (p : plugin_ptr) (d : OSRM) : option OSRM :=
  match objects d !! p with
  | Some _ =>
      Some {| plugin_map := plugin_map d;
              objects := delete p (objects d);
              log := log d;
              handled := handled d |}
  | None => None
  end.

Definition write_log (line : string) (d : OSRM) : OSRM :=
  {| plugin_map := plugin_map d;
     objects := objects d;
     log := log d ++ [line];
     handled := handled d |}.

(** [PluginMap] is declared in [OSRM.h], outside the sources, as a
    map from [std::string] to [BasePlugin *]. [emplace] on a map with unique
    keys constructs the new element only when the key is not yet present. *)
Definition emplace (key : string) (value : plugin_ptr)
    (m : gmap string plugin_ptr) : gmap string plugin_ptr :=
  match m !! key with
  | Some _ => m
  | None => <[key := value]> m
  end.

Definition set_plugin_map (m : gmap string plugin_ptr) (d : OSRM) : OSRM :=
  {| plugin_map := m;
     objects := objects d;
     log := log d;
     handled := handled d |}.

(** [OSRM::RegisterPlugin] *)
Definition RegisterPlugin (plugin : plugin_ptr) (d : OSRM) : option OSRM :=
  p ← deref plugin d;
  let d1 := write_log ("loaded plugin: " +:+ GetDescriptor p) d in
  d2 ← match plugin_map d1 !! GetDescriptor p with
       | Some old => delete_plugin old d1
       | None => Some d1
       end;
  p' ← deref plugin d2;
  Some (set_plugin_map (emplace (GetDescriptor p') plugin (plugin_map d2)) d2).

Definition note_call (p : plugin_ptr) (d : OSRM) : OSRM :=
  {| plugin_map := plugin_map d;
     objects := objects d;
     log := log d;
     handled := handled d ++ [p] |}.

(** [OSRM::RunQuery] *)
Definition RunQuery (route_parameters : RouteParameters PluginParameters)
    (reply : http.Reply) (d : OSRM) : option (http.Reply * OSRM) :=
  match plugin_map d !! service route_parameters with
  | Some ptr =>
      let reply1 := http.set_status http.ok reply in
      plugin ← deref ptr d;
      Some (HandleRequest plugin route_parameters reply1, note_call ptr d)
  | None => Some (stockReply http.badRequest, d)
  end.

(** [OSRM::~OSRM]: every pointer in the map is deleted. *)
Definition destroy (d : OSRM) : option OSRM :=
  foldr (fun entry acc => acc ≫= delete_plugin entry.2) (Some d)
        (map_to_list (plugin_map d)).

End Dispatcher.

Arguments BasePlugin PluginParameters : clear implicits.
Arguments OSRM PluginParameters : clear implicits.

(* ===================================================================== *)
(** ** Construction of the dispatcher *)
(* ===================================================================== *)

Section Construction.

Context {PluginParameters : Type}.

(** The server paths, the two data facade classes and the five plugin
    classes are declared outside the sources; they are parameters. *)
Variables ServerPaths DataFacade : Type.
Variable InternalDataFacade : ServerPaths -> DataFacade.
Variable SharedDataFacade : ServerPaths -> DataFacade.
Variable HelloWorldPlugin : BasePlugin PluginParameters.
Variable LocatePlugin : DataFacade -> BasePlugin PluginParameters.
Variable NearestPlugin : DataFacade -> BasePlugin PluginParameters.
Variable TimestampPlugin : DataFacade -> BasePlugin PluginParameters.
Variable ViaRoutePlugin : DataFacade -> BasePlugin PluginParameters.

(** [new] places the object at an address of the allocator's choosing. *)
Variable allocate : gmap plugin_ptr (BasePlugin PluginParameters) -> plugin_ptr.

Definition new_plugin (plugin : BasePlugin PluginParameters) (d : OSRM PluginParameters)
    : plugin_ptr * OSRM PluginParameters :=
  let p := allocate (objects d) in
  (p, {| plugin_map := plugin_map d;
         objects := <[p := plugin]> (objects d);
         log := log d;
         handled := handled d |}).

(** The members before the constructor body runs. *)
Definition OSRM_empty : OSRM PluginParameters :=
  {| plugin_map := ∅; objects := ∅; log := []; handled := [] |}.

(** [OSRM::OSRM]: the facade is chosen by the flag, then the five plugins
    are created and registered in the order of the source. *)
Definition OSRM_new (server_paths : ServerPaths) (use_shared_memory : bool)
    : option (DataFacade * OSRM PluginParameters) :=
  let query_data_facade :=
    if negb use_shared_memory then InternalDataFacade server_paths
    else SharedDataFacade server_paths in
  let n1 := new_plugin HelloWorldPlugin OSRM_empty in
  d1 ← RegisterPlugin n1.1 n1.2;
  let n2 := new_plugin (LocatePlugin query_data_facade) d1 in
  d2 ← RegisterPlugin n2.1 n2.2;
  let n3 := new_plugin (NearestPlugin query_data_facade) d2 in
  d3 ← RegisterPlugin n3.1 n3.2;
  let n4 := new_plugin (TimestampPlugin query_data_facade) d3 in
  d4 ← RegisterPlugin n4.1 n4.2;
  let n5 := new_plugin (ViaRoutePlugin query_data_facade) d4 in
  d5 ← RegisterPlugin n5.1 n5.2;
  Some (query_data_facade, d5).

End Construction.

(* ===================================================================== *)
(** ** Well-formed registries *)
(* ===================================================================== *)

(** Every entry of the registry points to a live plugin object, filed
    under that object's descriptor. *)
Definition registry_consistent {PluginParameters : Type} (d : OSRM PluginParameters) : Prop :=
  ∀ key p, plugin_map d !! key = Some p →
    ∃ plugin, objects d !! p = Some plugin ∧ GetDescriptor plugin = key.

(** Every live plugin object is the one the registry holds for its
    descriptor. *)
Definition registry_owns_all {PluginParameters : Type} (d : OSRM PluginParameters) : Prop :=
  ∀ p plugin, objects d !! p = Some plugin →
    plugin_map d !! GetDescriptor plugin = Some p.

(** The registry holds this plugin object under its descriptor. *)
Definition registered {PluginParameters : Type} (d : OSRM PluginParameters)
    (plugin : BasePlugin PluginParameters) : Prop :=
  ∃ p, plugin_map d !! GetDescriptor plugin = Some p ∧ objects d !! p = Some plugin.

(** An allocator never hands out the address of a live object. *)
Definition allocator_fresh {PluginParameters : Type}
    (allocate : gmap plugin_ptr (BasePlugin PluginParameters) -> plugin_ptr) : Prop :=
  ∀ m, m !! allocate m = None.

(* ===================================================================== *)
(** ** Search working storage *)
(* ===================================================================== *)

(** [NodeID] is an unsigned integer ([typedefs.h]). *)
Definition NodeID : Type := N.

Record _HeapData : Type := mk_HeapData {
  parent : NodeID
}.

(** Modelled from the spec: [BinaryHeap.h] is not among the sources. A heap
    is sized for a number of node identities; an entry is keyed by a node,
    carries a weight and the parent payload, and is pending until it has
    been extracted (settled). *)
Record HeapEntry : Type := mkHeapEntry {
  weight : Z;
  data : _HeapData;
  settled : bool
}.

Record QueryHeap : Type := mkQueryHeap {
  capacity : N;
  entries : gmap NodeID HeapEntry
}.

(** [new QueryHeap(number_of_nodes)] *)
Definition QueryHeap_new (number_of_nodes : N) : QueryHeap :=
  {| capacity := number_of_nodes; entries := ∅ |}.

(** [Clear()]: every entry goes, the storage stays. *)
Definition Clear (h : QueryHeap) : QueryHeap :=
  {| capacity := capacity h; entries := ∅ |}.

(** [Insert(node, weight, data)] *)
Definition Insert (node : NodeID) (w : Z) (d : _HeapData) (h : QueryHeap) : QueryHeap :=
  {| capacity := capacity h;
     entries := <[node := {| weight := w; data := d; settled := false |}]> (entries h) |}.

(** The calling thread. *)
Definition ThreadID : Type := positive.

(** [SearchEngineHeapPtr] is a [boost::thread_specific_ptr<QueryHeap>]: one
    pointer per thread, absent until the thread sets it. The six static
    slots are those of the header; [heap_allocations] counts the heaps
    allocated so far. *)
Record SearchEngineData : Type := mkSearchEngineData {
  forwardHeap : gmap ThreadID QueryHeap;
  backwardHeap : gmap ThreadID QueryHeap;
  forwardHeap2 : gmap ThreadID QueryHeap;
  backwardHeap2 : gmap ThreadID QueryHeap;
  forwardHeap3 : gmap ThreadID QueryHeap;
  backwardHeap3 : gmap ThreadID QueryHeap;
  heap_allocations : nat
}.

(** Modelled from the spec: the bodies of the three functions declared in
    [SearchEngineData.h] are not among the sources. For one
    thread-specific pointer: a missing heap is allocated for
    [number_of_nodes] nodes; an existing one is cleared and kept, unless
    [number_of_nodes] exceeds its capacity, in which case a new one of that
    size replaces it. The second component counts the allocations made. *)
Definition InitializeOrClearHeap (number_of_nodes : N) (slot : option QueryHeap)
    : QueryHeap * nat :=
  match slot with
  | None => (QueryHeap_new number_of_nodes, 1%nat)
  | Some h =>
      if (capacity h <? number_of_nodes)%N
      then (QueryHeap_new number_of_nodes, 1%nat)
      else (Clear h, 0%nat)
  end.

(** Modelled from the spec: the first forward/backward pair of the calling
    thread. *)
Definition InitializeOrClearFirstThreadLocalStorage (self : ThreadID)
    (number_of_nodes : N) (s : SearchEngineData) : SearchEngineData :=
  let f := InitializeOrClearHeap number_of_nodes (forwardHeap s !! self) in
  let b := InitializeOrClearHeap number_of_nodes (backwardHeap s !! self) in
  {| forwardHeap := <[self := f.1]> (forwardHeap s);
     backwardHeap := <[self := b.1]> (backwardHeap s);
     forwardHeap2 := forwardHeap2 s;
     backwardHeap2 := backwardHeap2 s;
     forwardHeap3 := forwardHeap3 s;
     backwardHeap3 := backwardHeap3 s;
     heap_allocations := (heap_allocations s + f.2 + b.2)%nat |}.

(** Modelled from the spec: the second pair. *)
Definition InitializeOrClearSecondThreadLocalStorage (self : ThreadID)
    (number_of_nodes : N) (s : SearchEngineData) : SearchEngineData :=
  let f := InitializeOrClearHeap number_of_nodes (forwardHeap2 s !! self) in
  let b := InitializeOrClearHeap number_of_nodes (backwardHeap2 s !! self) in
  {| forwardHeap := forwardHeap s;
     backwardHeap := backwardHeap s;
     forwardHeap2 := <[self := f.1]> (forwardHeap2 s);
     backwardHeap2 := <[self := b.1]> (backwardHeap2 s);
     forwardHeap3 := forwardHeap3 s;
     backwardHeap3 := backwardHeap3 s;
     heap_allocations := (heap_allocations s + f.2 + b.2)%nat |}.

(** Modelled from the spec: the third pair. *)
Definition InitializeOrClearThirdThreadLocalStorage (self : ThreadID)
    (number_of_nodes : N) (s : SearchEngineData) : SearchEngineData :=
  let f := InitializeOrClearHeap number_of_nodes (forwardHeap3 s !! self) in
  let b := InitializeOrClearHeap number_of_nodes (backwardHeap3 s !! self) in
  {| forwardHeap := forwardHeap s;
     backwardHeap := backwardHeap s;
     forwardHeap2 := forwardHeap2 s;
     backwardHeap2 := backwardHeap2 s;
     forwardHeap3 := <[self := f.1]> (forwardHeap3 s);
     backwardHeap3 := <[self := b.1]> (backwardHeap3 s);
     heap_allocations := (heap_allocations s + f.2 + b.2)%nat |}.

(** What a call leaves in one thread-specific pointer, in the words of the
    specification: no entry is left; a missing heap, or one too small for
    [number_of_nodes], is now a heap for exactly [number_of_nodes] nodes and
    counts as one allocation; a large enough heap keeps its storage and
    nothing is allocated. *)
Definition slot_reset (number_of_nodes : N) (before : option QueryHeap)
    (after : option QueryHeap) (allocated : nat) : Prop :=
  match after with
  | None => False
  | Some h' =>
      entries h' = ∅
      ∧ (number_of_nodes <= capacity h')%N
      ∧ match before with
        | None => capacity h' = number_of_nodes ∧ allocated = 1%nat
        | Some h =>
            ((number_of_nodes <= capacity h)%N → capacity h' = capacity h ∧ allocated = 0%nat)
            ∧ ((capacity h < number_of_nodes)%N → capacity h' = number_of_nodes ∧ allocated = 1%nat)
        end
  end.

(* ===================================================================== *)
(** ** Sample dispatchers and storage *)
(* ===================================================================== *)

(** Two plugin objects with the same descriptor. *)
Definition first_hello : BasePlugin unit :=
  {| GetDescriptor := "hello";
     HandleRequest := fun _ _ => {| http.status := http.ok; http.content := "first" |} |}.

Definition second_hello : BasePlugin unit :=
  {| GetDescriptor := "hello";
     HandleRequest := fun _ _ => {| http.status := http.ok; http.content := "second" |} |}.

(** A plugin whose handler leaves the reply as it finds it. *)
Definition spy_plugin : BasePlugin unit :=
  {| GetDescriptor := "spy";
     HandleRequest := fun _ reply => reply |}.

(** No plugin registered yet; the two hello objects are alive at 1 and 2. *)
Definition fresh_dispatcher : OSRM unit :=
  {| plugin_map := ∅;
     objects := <[2%positive := second_hello]> (<[1%positive := first_hello]> ∅);
     log := [];
     handled := [] |}.

(** The spy plugin registered under its descriptor. *)
Definition spy_dispatcher : OSRM unit :=
  {| plugin_map := <["spy" := 1%positive]> ∅;
     objects := <[1%positive := spy_plugin]> ∅;
     log := ["loaded plugin: spy"];
     handled := [] |}.

(** A registry whose entry for hello points to a deleted object, while
    another hello plugin is alive at 2. *)
Definition dangling_dispatcher : OSRM unit :=
  {| plugin_map := <["hello" := 1%positive]> ∅;
     objects := <[2%positive := second_hello]> ∅;
     log := ["loaded plugin: hello"; "loaded plugin: hello"];
     handled := [] |}.

Definition spy_request : RouteParameters unit :=
  {| service := "spy"; parameters := tt |}.

Definition route_request : RouteParameters unit :=
  {| service := "viaroute"; parameters := tt |}.

Definition stale_reply : http.Reply :=
  {| http.status := http.badRequest; http.content := "stale" |}.

(** A plugin class for concrete runs: it answers with its name and the
    facade it is bound to. *)
Definition sample_plugin (name : string) (facade : string) : BasePlugin unit :=
  {| GetDescriptor := name;
     HandleRequest := fun _ _ =>
       {| http.status := http.ok; http.content := name +:+ "@" +:+ facade |} |}.

(** An allocator for concrete runs: the first address that is not in use. *)
Definition sample_allocate (m : gmap plugin_ptr (BasePlugin unit)) : plugin_ptr :=
  fresh (dom m).

Definition sample_stock_content (s : http.status_type) : string :=
  match s with
  | http.ok => "OK"
  | http.badRequest => "Bad Request"
  | http.internalServerError => "Internal Server Error"
  end.

(** A thread whose first forward heap holds two nodes and whose first
    backward heap does not exist yet. *)
Definition used_storage : SearchEngineData :=
  {| forwardHeap :=
       <[1%positive := Insert 7%N 3%Z (mk_HeapData 4%N)
                         (Insert 4%N 0%Z (mk_HeapData 4%N) (QueryHeap_new 10%N))]> ∅;
     backwardHeap := ∅;
     forwardHeap2 := ∅;
     backwardHeap2 := ∅;
     forwardHeap3 := ∅;
     backwardHeap3 := ∅;
     heap_allocations := 1%nat |}.

(* ===================================================================== *)
(** ** Sample classifications *)
(* ===================================================================== *)

Definition motorway_road : RoadClassification :=
  RoadClassification_make true false false RoadPriorityClass.MOTORWAY 2.

Definition motorway_ramp : RoadClassification :=
  RoadClassification_make true true false RoadPriorityClass.MOTORWAY_LINK 1.

Definition trunk_road : RoadClassification :=
  RoadClassification_make false false false RoadPriorityClass.TRUNK 2.

Definition trunk_link_road : RoadClassification :=
  RoadClassification_make false true false RoadPriorityClass.TRUNK_LINK 1.

Definition residential_road : RoadClassification :=
  RoadClassification_make false false false RoadPriorityClass.MAIN_RESIDENTIAL 1.

Definition service_road : RoadClassification :=
  RoadClassification_make false false true RoadPriorityClass.CONNECTIVITY 1.

(** A value for [PRIORITY_DISTINCTION_FACTOR], used where a concrete run
    needs one. *)
Definition sample_factor : Q := 7 # 4.

(* ===================================================================== *)
(** ** Properties of the classification *)
(* ===================================================================== *)

Lemma Qltb_lt (x y : Q) : Qltb x y = true <-> (x < y)%Q.
Proof. unfold Qltb, Qlt. apply Z.ltb_lt. Qed.

Lemma RoadClassification_make_wf m l i p n :
  RoadClassification_wf (RoadClassification_make m l i p n).
Proof.
  unfold RoadClassification_wf, RoadClassification_make, truncate_bits; simpl.
  split; apply Z.mod_pos_bound; lia.
Qed.

Lemma RoadClassification_eqb_refl r : RoadClassification_eqb r r = true.
Proof.
  unfold RoadClassification_eqb.
  rewrite !Bool.eqb_reflx, Z.eqb_refl. reflexivity.
Qed.

Lemma RoadClassification_eqb_lanes a b n :
  RoadClassification_eqb (SetNumberOfLanes n a) b = RoadClassification_eqb a b.
Proof. reflexivity. Qed.

Lemma canBeSeenAsFork_sym a b : canBeSeenAsFork a b = canBeSeenAsFork b a.
Proof.
  unfold canBeSeenAsFork.
  replace (GetPriority b - GetPriority a)%Z with (- (GetPriority a - GetPriority b))%Z by lia.
  now rewrite Z.abs_opp.
Qed.

(** C9: a default-constructed classification has class CONNECTIVITY (31),
    is neither motorway nor link, has 0 lanes, and is not flagged as low
    priority: [may_be_ignored] is a flag of its own and starts cleared. *)
Theorem RoadClassification_default_fields :
  GetClass RoadClassification_default = RoadPriorityClass.CONNECTIVITY
  /\ GetClass RoadClassification_default = 31%Z
  /\ GetPriority RoadClassification_default = 31%Z
  /\ IsMotorwayClass RoadClassification_default = false
  /\ IsLinkClass RoadClassification_default = false
  /\ IsRampClass RoadClassification_default = false
  /\ GetNumberOfLanes RoadClassification_default = 0%Z
  /\ IsLowPriorityRoadClass RoadClassification_default = false.
Proof. repeat split. Qed.

(** C6: [isLinkTo link road] is true exactly when [link] is link-class,
    [road] is not, and the two priorities are one of the five pairs
    motorway_link/motorway, trunk_link/trunk, primary_link/primary,
    secondary_link/secondary, tertiary_link/tertiary. *)
Theorem isLinkTo_iff (link road : RoadClassification) :
  isLinkTo link road = true <->
  IsLinkClass link = true /\ IsLinkClass road = false /\
  ( (GetPriority link = RoadPriorityClass.MOTORWAY_LINK
       /\ GetPriority road = RoadPriorityClass.MOTORWAY)
    \/ (GetPriority link = RoadPriorityClass.TRUNK_LINK
       /\ GetPriority road = RoadPriorityClass.TRUNK)
    \/ (GetPriority link = RoadPriorityClass.PRIMARY_LINK
       /\ GetPriority road = RoadPriorityClass.PRIMARY)
    \/ (GetPriority link = RoadPriorityClass.SECONDARY_LINK
       /\ GetPriority road = RoadPriorityClass.SECONDARY)
    \/ (GetPriority link = RoadPriorityClass.TERTIARY_LINK
       /\ GetPriority road = RoadPriorityClass.TERTIARY) ).
Proof.
  unfold isLinkTo.
  destruct (IsLinkClass link), (IsLinkClass road); simpl;
    try (split; [discriminate | intros (Hl & Hr & _); discriminate]).
  unfold RoadPriorityClass.MOTORWAY_LINK, RoadPriorityClass.MOTORWAY,
    RoadPriorityClass.TRUNK_LINK, RoadPriorityClass.TRUNK,
    RoadPriorityClass.PRIMARY_LINK, RoadPriorityClass.PRIMARY,
    RoadPriorityClass.SECONDARY_LINK, RoadPriorityClass.SECONDARY,
    RoadPriorityClass.TERTIARY_LINK, RoadPriorityClass.TERTIARY.
  destruct (Z.eqb_spec (GetPriority link) 1);
    [| destruct (Z.eqb_spec (GetPriority link) 3);
       [| destruct (Z.eqb_spec (GetPriority link) 5);
          [| destruct (Z.eqb_spec (GetPriority link) 7);
             [| destruct (Z.eqb_spec (GetPriority link) 9)]]]];
    try rewrite Z.eqb_eq; try (split; [discriminate | ]); lia.
Qed.

(** *** [strictlyLess] and the bands *)

Lemma firstn_dividers : firstn num_dividers dividers = dividers.
Proof. reflexivity. Qed.

(** What the function computes: the position of [lhs] among the dividers
    is below the position of [rhs]. *)
Lemma strictlyLess_positions (lhs rhs : RoadClassification) :
  strictlyLess lhs rhs = true <->
  (upper_bound dividers (GetPriority lhs) < upper_bound dividers (GetPriority rhs))%nat.
Proof.
  unfold strictlyLess. rewrite firstn_dividers. apply Nat.ltb_lt.
Qed.

Lemma upper_bound_mono (range : list Z) (p q : Z) :
  (p <= q)%Z -> (upper_bound range p <= upper_bound range q)%nat.
Proof.
  intros Hpq. induction range as [| d rest IH]; simpl; [lia |].
  destruct (Z.ltb_spec p d), (Z.ltb_spec q d); lia.
Qed.

Lemma band_index_of_mono (ends : list Z) (p q : Z) :
  (p <= q)%Z -> (band_index_of ends p <= band_index_of ends q)%nat.
Proof.
  intros Hpq. induction ends as [| d rest IH]; simpl; [lia |].
  destruct (Z.leb_spec p d), (Z.leb_spec q d); lia.
Qed.

(** Equal priorities are never strictly less than each other. *)
Lemma strictlyLess_irrefl (r : RoadClassification) : strictlyLess r r = false.
Proof. unfold strictlyLess. apply Nat.ltb_irrefl. Qed.

(** A numerically larger priority (a less important road) on the left
    never makes [strictlyLess] true. *)
Lemma strictlyLess_false_of_ge (lhs rhs : RoadClassification) :
  (GetPriority rhs <= GetPriority lhs)%Z -> strictlyLess lhs rhs = false.
Proof.
  intros Hle. unfold strictlyLess. rewrite firstn_dividers.
  apply Nat.ltb_ge. now apply upper_bound_mono.
Qed.

(** Wherever the left road lies in a later (less important) band than the
    right one, the function answers [false]. *)
Lemma strictlyLess_false_on_later_band (lhs rhs : RoadClassification) :
  (band_index rhs < band_index lhs)%nat -> strictlyLess lhs rhs = false.
Proof.
  unfold band_index. intros Hband.
  apply strictlyLess_false_of_ge.
  destruct (Z.le_gt_cases (GetPriority rhs) (GetPriority lhs)) as [Hle | Hgt]; [exact Hle |].
  assert (GetPriority lhs <= GetPriority rhs)%Z as Hle by lia.
  pose proof (band_index_of_mono dividers _ _ Hle). lia.
Qed.

(** C2 at concrete roads: a residential road lies in a later band than a
    motorway, yet [strictlyLess residential motorway] is [false] and the
    converse call is [true]; and a trunk road and its link lie in the same
    inclusive band, yet [strictlyLess trunk trunk_link] is [true]. *)
Theorem strictlyLess_residential_vs_motorway :
  GetPriority residential_road = 10%Z
  /\ GetPriority motorway_road = 0%Z
  /\ band_index residential_road = 2%nat
  /\ band_index motorway_road = 0%nat
  /\ strictlyLess residential_road motorway_road = false
  /\ strictlyLess motorway_road residential_road = true
  /\ band_index trunk_road = band_index trunk_link_road
  /\ strictlyLess trunk_road trunk_link_road = true.
Proof. repeat split. Qed.

(** *** [obviousByRoadClass] *)

(** C7: when [in] and the obvious candidate are motorway-class and the
    compared candidate is a ramp (motorway-class and link-class), the
    answer is [true], whatever the distinction factor. *)
Theorem obviousByRoadClass_passing_ramp_on_motorway
    (factor : Q) (in_classification obvious_candidate compare_candidate : RoadClassification) :
  IsMotorwayClass in_classification = true ->
  IsMotorwayClass obvious_candidate = true ->
  IsRampClass compare_candidate = true ->
  obviousByRoadClass factor in_classification obvious_candidate compare_candidate = true.
Proof.
  intros Hin Hobvious Hramp. unfold obviousByRoadClass.
  rewrite Hin, Hobvious, Hramp. reflexivity.
Qed.

Lemma obviousByRoadClass_passing_ramp_on_motorway_witness :
  IsMotorwayClass motorway_road = true
  /\ GetPriority motorway_road = RoadPriorityClass.MOTORWAY
  /\ IsRampClass motorway_ramp = true
  /\ GetPriority motorway_ramp = RoadPriorityClass.MOTORWAY_LINK
  /\ obviousByRoadClass sample_factor motorway_road motorway_road motorway_ramp = true.
Proof.
  do 4 (split; [reflexivity |]).
  apply (obviousByRoadClass_passing_ramp_on_motorway
           sample_factor motorway_road motorway_road motorway_ramp); reflexivity.
Defined.

(** C10: dropping the [!passing_ramp] conjunct from the last [return]
    changes no result: [has_high_priority] already demands that the
    compared candidate is no ramp, [passing_ramp] that it is one. *)
Theorem obviousByRoadClass_passing_ramp_redundant
    (factor : Q) (in_classification obvious_candidate compare_candidate : RoadClassification) :
  obviousByRoadClass factor in_classification obvious_candidate compare_candidate
  = obviousByRoadClass_without_passing_ramp
      factor in_classification obvious_candidate compare_candidate.
Proof.
  unfold obviousByRoadClass, obviousByRoadClass_without_passing_ramp.
  destruct (IsRampClass compare_candidate) eqn:Hramp.
  - (* a ramp: has_high_priority is false on both sides *)
    rewrite !andb_false_r. reflexivity.
  - (* no ramp: passing_ramp is false *)
    simpl. rewrite !andb_true_r. reflexivity.
Qed.

(** What [has_high_priority && !passing_ramp] rests on: the two cannot
    hold together. *)
Lemma passing_ramp_excludes_high_priority (b : bool) (in_c compare : RoadClassification) :
  b && negb (IsRampClass compare)
  && (IsRampClass compare && negb (IsMotorwayClass in_c) && negb (IsRampClass in_c)) = false.
Proof. destruct b, (IsRampClass compare); reflexivity. Qed.

(** *** [obviousByRoadClassOld] *)

(** The legacy variant reads [in] in two places: the comparison with the
    obvious candidate and the low-priority flag. *)
Lemma obviousByRoadClassOld_unfold (factor : Q) (i o c : RoadClassification) :
  obviousByRoadClassOld factor i o c =
  (Qltb (factor * inject_Z (if IsLinkClass o then RoadPriorityClass.LINK_ROAD else GetPriority o))
        (inject_Z (if IsLinkClass c then RoadPriorityClass.LINK_ROAD else GetPriority c))
   && RoadClassification_eqb i o)
  || (negb (IsLowPriorityRoadClass o) && negb (IsLowPriorityRoadClass i)
      && IsLowPriorityRoadClass c).
Proof. reflexivity. Qed.

(** C3, as the code has it: the result depends on [in] only through
    [in == obvious_candidate] and [in.IsLowPriorityRoadClass()]; two [in]
    values that agree on both give the same result. *)
Theorem obviousByRoadClassOld_in_only_via_eq_and_flag
    (factor : Q) (in1 in2 obvious_candidate compare_candidate : RoadClassification) :
  RoadClassification_eqb in1 obvious_candidate = RoadClassification_eqb in2 obvious_candidate ->
  IsLowPriorityRoadClass in1 = IsLowPriorityRoadClass in2 ->
  obviousByRoadClassOld factor in1 obvious_candidate compare_candidate
  = obviousByRoadClassOld factor in2 obvious_candidate compare_candidate.
Proof.
  intros Heq Hlow. rewrite !obviousByRoadClassOld_unfold, Heq, Hlow. reflexivity.
Qed.

Lemma obviousByRoadClassOld_in_only_via_eq_and_flag_witness :
  residential_road <> SetNumberOfLanes 4 residential_road
  /\ obviousByRoadClassOld sample_factor residential_road residential_road service_road
     = obviousByRoadClassOld sample_factor (SetNumberOfLanes 4 residential_road)
         residential_road service_road.
Proof.
  split; [discriminate |].
  apply (obviousByRoadClassOld_in_only_via_eq_and_flag sample_factor
           residential_road (SetNumberOfLanes 4 residential_road)
           residential_road service_road); reflexivity.
Defined.

(** C3 as stated fails: with a non-ignorable obvious candidate and an
    ignorable compared candidate, a non-ignorable [in] gives [true] and an
    ignorable [in] gives [false], for every distinction factor. *)
Lemma obviousByRoadClassOld_depends_on_in :
  ~ (exists factor : Q,
       obviousByRoadClassOld factor residential_road residential_road service_road
       = obviousByRoadClassOld factor (SetLowPriorityFlag true residential_road)
           residential_road service_road).
Proof.
  intros [factor Heq]. rewrite !obviousByRoadClassOld_unfold in Heq.
  change (RoadClassification_eqb (SetLowPriorityFlag true residential_road) residential_road)
    with false in Heq.
  rewrite andb_false_r in Heq. simpl in Heq.
  rewrite orb_true_r in Heq. discriminate.
Qed.

(* ===================================================================== *)
(** ** Properties of the dispatcher *)
(* ===================================================================== *)

Section DispatcherProperties.

Context {PluginParameters : Type}.
Variable stock_content : http.status_type -> string.

Implicit Types (d : OSRM PluginParameters) (p : plugin_ptr).
Implicit Types (plugin : BasePlugin PluginParameters).
Implicit Types (reply : http.Reply) (rp : RouteParameters PluginParameters).

Lemma emplace_present key value (m : gmap string plugin_ptr) old :
  m !! key = Some old -> emplace key value m = m.
Proof. intros H. unfold emplace. now rewrite H. Qed.

Lemma emplace_absent key value (m : gmap string plugin_ptr) :
  m !! key = None -> emplace key value m = <[key := value]> m.
Proof. intros H. unfold emplace. now rewrite H. Qed.

(** [emplace] never changes what a key already maps to. *)
Lemma lookup_emplace_present key value (m : gmap string plugin_ptr) old :
  m !! key = Some old -> emplace key value m !! key = Some old.
Proof. intros H. now rewrite (emplace_present _ _ _ _ H). Qed.

Lemma lookup_emplace_absent key value (m : gmap string plugin_ptr) :
  m !! key = None -> emplace key value m !! key = Some value.
Proof. intros H. rewrite (emplace_absent _ _ _ H). apply lookup_insert_eq. Qed.

(** Registering under a descriptor that is free stores the pointer. *)
Lemma RegisterPlugin_fresh d p plugin :
  objects d !! p = Some plugin ->
  plugin_map d !! GetDescriptor plugin = None ->
  RegisterPlugin p d =
    Some (set_plugin_map (<[GetDescriptor plugin := p]> (plugin_map d))
            (write_log ("loaded plugin: " +:+ GetDescriptor plugin) d)).
Proof.
  intros Hlive Hfree. unfold RegisterPlugin, deref. rewrite Hlive. simpl.
  rewrite Hfree. simpl. rewrite Hlive. simpl.
  now rewrite (emplace_absent _ _ _ Hfree).
Qed.

(** Registering under a descriptor that is taken deletes the object the
    map points to and leaves the map as it was: the entry now points to a
    deleted object and the new plugin is stored nowhere. *)
Lemma RegisterPlugin_taken d p plugin old d' :
  objects d !! p = Some plugin ->
  plugin_map d !! GetDescriptor plugin = Some old ->
  RegisterPlugin p d = Some d' ->
  plugin_map d' = plugin_map d
  /\ objects d' = delete old (objects d)
  /\ is_Some (objects d !! old)
  /\ old <> p.
Proof.
  intros Hlive Htaken. unfold RegisterPlugin, deref. rewrite Hlive. simpl.
  rewrite Htaken. unfold delete_plugin. simpl.
  destruct (objects d !! old) as [victim |] eqn:Hold; simpl; [| discriminate].
  destruct (decide (old = p)) as [-> | Hne].
  - rewrite lookup_delete_eq. discriminate.
  - rewrite lookup_delete_ne by exact Hne. rewrite Hlive. simpl.
    intros [= <-]. simpl.
    rewrite (emplace_present _ _ _ _ Htaken). eauto.
Qed.

(** Two registrations under one descriptor, in any dispatcher: when both
    calls run through, the entry holds the first pointer, whose object has
    been deleted; it never holds the second. *)
Lemma RegisterPlugin_twice_keeps_first d d1 d2 p1 p2 plugin1 plugin2 :
  objects d !! p1 = Some plugin1 ->
  objects d !! p2 = Some plugin2 ->
  GetDescriptor plugin1 = GetDescriptor plugin2 ->
  RegisterPlugin p1 d = Some d1 ->
  RegisterPlugin p2 d1 = Some d2 ->
  plugin_map d2 !! GetDescriptor plugin1 = Some p1
  /\ objects d2 !! p1 = None
  /\ plugin_map d2 !! GetDescriptor plugin1 <> Some p2.
Proof.
  intros Hlive1 Hlive2 Hsame Hfirst Hsecond.
  destruct (plugin_map d !! GetDescriptor plugin1) as [old |] eqn:Hentry.
  - (* the descriptor was taken: the second call deletes [old] again *)
    exfalso.
    destruct (RegisterPlugin_taken _ _ _ _ _ Hlive1 Hentry Hfirst)
      as (Hmap & Hobjects & _ & Hne1).
    assert (objects d1 !! p2 = Some plugin2) as Hlive2'.
    { rewrite Hobjects.
      destruct (decide (old = p2)) as [-> | Hne2].
      - revert Hsecond. unfold RegisterPlugin, deref.
        rewrite Hobjects, lookup_delete_eq. discriminate.
      - now rewrite lookup_delete_ne. }
    assert (plugin_map d1 !! GetDescriptor plugin2 = Some old) as Hentry'
      by now rewrite Hmap, <- Hsame.
    destruct (RegisterPlugin_taken _ _ _ _ _ Hlive2' Hentry' Hsecond)
      as (_ & _ & [victim Hvictim] & _).
    rewrite Hobjects, lookup_delete_eq in Hvictim. discriminate.
  - (* the descriptor was free *)
    rewrite (RegisterPlugin_fresh _ _ _ Hlive1 Hentry) in Hfirst.
    injection Hfirst as <-.
    assert (p1 <> p2) as Hne.
    { intros ->. revert Hsecond. unfold RegisterPlugin, deref. simpl.
      rewrite Hlive2. simpl. rewrite <- Hsame.
      assert (plugin1 = plugin2) as <- by congruence.
      rewrite lookup_insert_eq. unfold delete_plugin. simpl.
      rewrite Hlive2. simpl. rewrite lookup_delete_eq. discriminate. }
    assert (is_Some (objects d !! p1)) as _ by eauto.
    match type of Hsecond with RegisterPlugin p2 ?d1 = _ =>
      destruct (RegisterPlugin_taken d1 p2 plugin2 p1 d2) as (Hmap & Hobjects & _ & _);
        [exact Hlive2 | simpl; rewrite <- Hsame; apply lookup_insert_eq | exact Hsecond |]
    end.
    rewrite Hmap, Hobjects. simpl. rewrite lookup_insert_eq, lookup_delete_eq.
    repeat split; congruence.
Qed.

(** C4, as the code has it: for a service that is registered and whose
    plugin object is alive, [RunQuery] sets the status of the reply to ok,
    hands that reply to the handler of that plugin, once, and returns what
    the handler made of it; nothing is written after the handler. *)
Theorem RunQuery_registered d rp reply p plugin :
  plugin_map d !! service rp = Some p ->
  objects d !! p = Some plugin ->
  RunQuery stock_content rp reply d
    = Some (HandleRequest plugin rp (http.set_status http.ok reply), note_call p d)
  /\ handled (note_call p d) = handled d ++ [p]
  /\ plugin_map (note_call p d) = plugin_map d
  /\ objects (note_call p d) = objects d.
Proof.
  intros Hfound Hlive. unfold RunQuery, deref.
  rewrite Hfound. simpl. rewrite Hlive. simpl. repeat split.
Qed.

(** C5: for a service that is not registered, [RunQuery] returns the stock
    bad-request reply, whatever the reply held before, and the dispatcher
    is unchanged: no handler has been called. *)
Theorem RunQuery_unregistered d rp reply :
  plugin_map d !! service rp = None ->
  RunQuery stock_content rp reply d = Some (stockReply stock_content http.badRequest, d)
  /\ http.status (stockReply stock_content http.badRequest) = http.badRequest
  /\ http.content (stockReply stock_content http.badRequest) = stock_content http.badRequest.
Proof.
  intros Hmissing. unfold RunQuery. rewrite Hmissing. repeat split.
Qed.

End DispatcherProperties.

(** *** The dispatcher at concrete requests *)

(** C1 at a concrete dispatcher: two live plugin objects with the
    descriptor hello are registered one after the other. The registry ends
    with one entry for hello, which still points to the first object; that
    object has been deleted, the second is alive but not in the registry,
    and both a query for hello and the destructor then use a deleted
    object. *)
Theorem RegisterPlugin_same_descriptor_twice :
  GetDescriptor first_hello = GetDescriptor second_hello
  /\ exists d2 : OSRM unit,
       (RegisterPlugin 1%positive fresh_dispatcher ≫= RegisterPlugin 2%positive) = Some d2
       /\ size (plugin_map d2) = 1%nat
       /\ plugin_map d2 !! "hello" = Some 1%positive
       /\ plugin_map d2 !! "hello" <> Some 2%positive
       /\ objects d2 !! 1%positive = None
       /\ objects d2 !! 2%positive = Some second_hello
       /\ RunQuery sample_stock_content {| service := "hello"; parameters := tt |}
            stale_reply d2 = None
       /\ destroy d2 = None.
Proof.
  split; [reflexivity |].
  eexists. split; [vm_compute; reflexivity |].
  repeat split; try (vm_compute; reflexivity).
  vm_compute. discriminate.
Qed.

Lemma RunQuery_registered_witness :
  plugin_map spy_dispatcher !! service spy_request = Some 1%positive
  /\ objects spy_dispatcher !! 1%positive = Some spy_plugin
  /\ RunQuery sample_stock_content spy_request stale_reply spy_dispatcher
       = Some (HandleRequest spy_plugin spy_request (http.set_status http.ok stale_reply),
               note_call 1%positive spy_dispatcher)
  /\ handled (note_call 1%positive spy_dispatcher) = handled spy_dispatcher ++ [1%positive].
Proof.
  assert (plugin_map spy_dispatcher !! service spy_request = Some 1%positive) as Hfound
    by (vm_compute; reflexivity).
  assert (objects spy_dispatcher !! 1%positive = Some spy_plugin) as Hlive
    by (vm_compute; reflexivity).
  destruct (RunQuery_registered sample_stock_content
              spy_dispatcher spy_request stale_reply 1%positive spy_plugin Hfound Hlive)
    as (Hrun & Hcalls & _).
  exact (conj Hfound (conj Hlive (conj Hrun Hcalls))).
Defined.

(** C4 as stated fails: the spy handler writes nothing, the reply comes in
    with status bad-request, and it leaves [RunQuery] with status ok, which
    is not what the handler makes of the caller's reply. *)
Lemma RunQuery_status_written_by_dispatcher :
  plugin_map spy_dispatcher !! service spy_request = Some 1%positive
  /\ objects spy_dispatcher !! 1%positive = Some spy_plugin
  /\ HandleRequest spy_plugin spy_request stale_reply = stale_reply
  /\ http.status stale_reply = http.badRequest
  /\ fst <$> RunQuery sample_stock_content spy_request stale_reply spy_dispatcher
     = Some {| http.status := http.ok; http.content := "stale" |}
  /\ fst <$> RunQuery sample_stock_content spy_request stale_reply spy_dispatcher
     <> Some (HandleRequest spy_plugin spy_request stale_reply).
Proof.
  repeat split; try (vm_compute; reflexivity).
  vm_compute. discriminate.
Qed.

Lemma RunQuery_unregistered_witness :
  plugin_map spy_dispatcher !! service route_request = None
  /\ RunQuery sample_stock_content route_request stale_reply spy_dispatcher
     = Some (stockReply sample_stock_content http.badRequest, spy_dispatcher)
  /\ http.status (stockReply sample_stock_content http.badRequest) = http.badRequest.
Proof.
  assert (plugin_map spy_dispatcher !! service route_request = None) as Hmissing
    by (vm_compute; reflexivity).
  destruct (RunQuery_unregistered sample_stock_content
              spy_dispatcher route_request stale_reply Hmissing) as (Hrun & Hstatus & _).
  exact (conj Hmissing (conj Hrun Hstatus)).
Defined.

(* ===================================================================== *)
(** ** Properties of the search storage *)
(* ===================================================================== *)

Lemma Clear_entries h : entries (Clear h) = ∅.
Proof. reflexivity. Qed.

Lemma Clear_capacity h : capacity (Clear h) = capacity h.
Proof. reflexivity. Qed.

Lemma InitializeOrClearHeap_reset (number_of_nodes : N) (slot : option QueryHeap) :
  slot_reset number_of_nodes slot
    (Some (InitializeOrClearHeap number_of_nodes slot).1)
    (InitializeOrClearHeap number_of_nodes slot).2.
Proof.
  unfold slot_reset, InitializeOrClearHeap.
  destruct slot as [h |]; simpl.
  - destruct (N.ltb_spec (capacity h) number_of_nodes); simpl;
      repeat split; intros; try reflexivity; lia.
  - repeat split; lia.
Qed.

(** Other threads keep their heaps. *)
Lemma InitializeOrClearFirstThreadLocalStorage_other_thread self other n s :
  other <> self ->
  forwardHeap (InitializeOrClearFirstThreadLocalStorage self n s) !! other
    = forwardHeap s !! other
  /\ backwardHeap (InitializeOrClearFirstThreadLocalStorage self n s) !! other
    = backwardHeap s !! other.
Proof.
  intros Hne. simpl. split; apply lookup_insert_ne; congruence.
Qed.

(** C8: each of the three functions leaves both heaps of its pair, for the
    calling thread, reset in the sense of [slot_reset]: allocated for
    [number_of_nodes] when missing, emptied and kept when large enough,
    replaced by one of the new size when too small. *)
Theorem InitializeOrClearThreadLocalStorage_resets
    (self : ThreadID) (number_of_nodes : N) (s : SearchEngineData) :
  (exists fa ba : nat,
     slot_reset number_of_nodes (forwardHeap s !! self)
       (forwardHeap (InitializeOrClearFirstThreadLocalStorage self number_of_nodes s) !! self) fa
     /\ slot_reset number_of_nodes (backwardHeap s !! self)
       (backwardHeap (InitializeOrClearFirstThreadLocalStorage self number_of_nodes s) !! self) ba
     /\ heap_allocations (InitializeOrClearFirstThreadLocalStorage self number_of_nodes s)
        = (heap_allocations s + fa + ba)%nat)
  /\ (exists fa ba : nat,
     slot_reset number_of_nodes (forwardHeap2 s !! self)
       (forwardHeap2 (InitializeOrClearSecondThreadLocalStorage self number_of_nodes s) !! self) fa
     /\ slot_reset number_of_nodes (backwardHeap2 s !! self)
       (backwardHeap2 (InitializeOrClearSecondThreadLocalStorage self number_of_nodes s) !! self) ba
     /\ heap_allocations (InitializeOrClearSecondThreadLocalStorage self number_of_nodes s)
        = (heap_allocations s + fa + ba)%nat)
  /\ (exists fa ba : nat,
     slot_reset number_of_nodes (forwardHeap3 s !! self)
       (forwardHeap3 (InitializeOrClearThirdThreadLocalStorage self number_of_nodes s) !! self) fa
     /\ slot_reset number_of_nodes (backwardHeap3 s !! self)
       (backwardHeap3 (InitializeOrClearThirdThreadLocalStorage self number_of_nodes s) !! self) ba
     /\ heap_allocations (InitializeOrClearThirdThreadLocalStorage self number_of_nodes s)
        = (heap_allocations s + fa + ba)%nat).
Proof.
  repeat apply conj.
  - exists (InitializeOrClearHeap number_of_nodes (forwardHeap s !! self)).2,
           (InitializeOrClearHeap number_of_nodes (backwardHeap s !! self)).2.
    simpl. rewrite !lookup_insert_eq.
    repeat apply conj; [apply InitializeOrClearHeap_reset .. | reflexivity].
  - exists (InitializeOrClearHeap number_of_nodes (forwardHeap2 s !! self)).2,
           (InitializeOrClearHeap number_of_nodes (backwardHeap2 s !! self)).2.
    simpl. rewrite !lookup_insert_eq.
    repeat apply conj; [apply InitializeOrClearHeap_reset .. | reflexivity].
  - exists (InitializeOrClearHeap number_of_nodes (forwardHeap3 s !! self)).2,
           (InitializeOrClearHeap number_of_nodes (backwardHeap3 s !! self)).2.
    simpl. rewrite !lookup_insert_eq.
    repeat apply conj; [apply InitializeOrClearHeap_reset .. | reflexivity].
Qed.

(** A thread that used ten-node storage: the same size clears the forward
    heap in place and allocates only the missing backward heap; twenty
    nodes replace the forward heap as well. *)
Example used_storage_reinitialized :
  (capacity <$> forwardHeap used_storage !! 1%positive) = Some 10%N
  /\ (size ∘ entries <$> forwardHeap used_storage !! 1%positive) = Some 2%nat
  /\ forwardHeap (InitializeOrClearFirstThreadLocalStorage 1%positive 10%N used_storage) !! 1%positive
     = Some (QueryHeap_new 10%N)
  /\ heap_allocations (InitializeOrClearFirstThreadLocalStorage 1%positive 10%N used_storage) = 2%nat
  /\ forwardHeap (InitializeOrClearFirstThreadLocalStorage 1%positive 20%N used_storage) !! 1%positive
     = Some (QueryHeap_new 20%N)
  /\ heap_allocations (InitializeOrClearFirstThreadLocalStorage 1%positive 20%N used_storage) = 3%nat.
Proof. repeat split; vm_compute; reflexivity. Qed.

(* ===================================================================== *)
(** ** Further properties of the classification *)
(* ===================================================================== *)

Lemma truncate_bits_5_8 (v : Z) : truncate_bits 5 (truncate_bits 8 v) = (v mod 32)%Z.
Proof.
  unfold truncate_bits. change (2 ^ 8)%Z with 256%Z. change (2 ^ 5)%Z with 32%Z.
  apply Z.mod_mod_divide. exists 8%Z. reflexivity.
Qed.

Lemma RoadClassification_eqb_fields (a b : RoadClassification) :
  RoadClassification_eqb a b = true <->
  motorway_class a = motorway_class b
  /\ link_class a = link_class b
  /\ may_be_ignored a = may_be_ignored b
  /\ road_priority_class a = road_priority_class b.
Proof.
  unfold RoadClassification_eqb.
  rewrite !andb_true_iff, !Bool.eqb_true_iff, Z.eqb_eq. tauto.
Qed.

(** X1: the five-argument constructor hands the three flags through, keeps
    the priority modulo 32 and the lane count modulo 256, always yields a
    value that fits the fields, and returns the priority it was given
    exactly when that priority fits five bits. *)
Theorem RoadClassification_make_getters (m l i : bool) (p n : Z) :
  let r := RoadClassification_make m l i p n in
  IsMotorwayClass r = m
  /\ IsLinkClass r = l
  /\ IsLowPriorityRoadClass r = i
  /\ IsRampClass r = m && l
  /\ GetPriority r = (p mod 32)%Z
  /\ GetNumberOfLanes r = (n mod 256)%Z
  /\ RoadClassification_wf r
  /\ (GetClass r = p <-> (0 <= p < 32)%Z).
Proof.
  cbv zeta.
  assert (GetPriority (RoadClassification_make m l i p n) = (p mod 32)%Z) as Hp
    by apply truncate_bits_5_8.
  do 6 (split; [first [reflexivity | exact Hp] |]).
  split; [apply RoadClassification_make_wf |].
  unfold GetClass. unfold GetPriority in Hp. rewrite Hp. split.
  - intros Heq. rewrite <- Heq. apply Z.mod_pos_bound. lia.
  - intros Hrange. apply Z.mod_small. exact Hrange.
Qed.

(** X2: [SetClass] and [SetNumberOfLanes] truncate like the constructor,
    leave every other field alone and keep the value well-formed. *)
Theorem setters_truncate_and_frame (r : RoadClassification) (v : Z) :
  GetClass (SetClass v r) = (v mod 32)%Z
  /\ GetNumberOfLanes (SetNumberOfLanes v r) = (v mod 256)%Z
  /\ GetNumberOfLanes (SetClass v r) = GetNumberOfLanes r
  /\ GetClass (SetNumberOfLanes v r) = GetClass r
  /\ RoadClassification_eqb (SetNumberOfLanes v r) r = true
  /\ (RoadClassification_eqb (SetClass v r) r = true <-> GetClass r = (v mod 32)%Z)
  /\ (RoadClassification_wf r ->
      RoadClassification_wf (SetClass v r) /\ RoadClassification_wf (SetNumberOfLanes v r)).
Proof.
  assert (GetClass (SetClass v r) = (v mod 32)%Z) as Hclass by apply truncate_bits_5_8.
  do 4 (split; [first [exact Hclass | reflexivity] |]).
  split; [rewrite RoadClassification_eqb_lanes; apply RoadClassification_eqb_refl |].
  split; [split |].
  - rewrite RoadClassification_eqb_fields. intros (_ & _ & _ & Hp).
    unfold GetClass in *. congruence.
  - intros Hp. apply RoadClassification_eqb_fields.
    unfold GetClass in *. simpl in *. repeat split. congruence.
  - intros [Hpriority Hlanes]. split; split; simpl; try assumption.
    + unfold GetClass in Hclass. simpl in Hclass. rewrite Hclass.
      apply Z.mod_pos_bound. lia.
    + unfold truncate_bits. apply Z.mod_pos_bound. lia.
Qed.

(** X3: [operator==] is an equivalence relation that compares exactly the
    three flags and the priority, lanes apart; [operator!=] is its
    negation. *)
Theorem RoadClassification_eqb_equivalence :
  (forall a, RoadClassification_eqb a a = true)
  /\ (forall a b, RoadClassification_eqb a b = RoadClassification_eqb b a)
  /\ (forall a b c, RoadClassification_eqb a b = true -> RoadClassification_eqb b c = true ->
        RoadClassification_eqb a c = true)
  /\ (forall a b, RoadClassification_eqb a b = true <->
        IsMotorwayClass a = IsMotorwayClass b /\ IsLinkClass a = IsLinkClass b
        /\ IsLowPriorityRoadClass a = IsLowPriorityRoadClass b /\ GetClass a = GetClass b)
  /\ (forall a b, RoadClassification_neqb a b = true <-> RoadClassification_eqb a b = false).
Proof.
  repeat apply conj.
  - apply RoadClassification_eqb_refl.
  - intros a b.
    destruct (RoadClassification_eqb a b) eqn:Hab, (RoadClassification_eqb b a) eqn:Hba;
      try reflexivity.
    + apply RoadClassification_eqb_fields in Hab.
      assert (RoadClassification_eqb b a = true) as Habs
        by (apply RoadClassification_eqb_fields; intuition congruence).
      congruence.
    + apply RoadClassification_eqb_fields in Hba.
      assert (RoadClassification_eqb a b = true) as Habs
        by (apply RoadClassification_eqb_fields; intuition congruence).
      congruence.
  - intros a b c Hab Hbc. apply RoadClassification_eqb_fields.
    apply RoadClassification_eqb_fields in Hab, Hbc. intuition congruence.
  - intros a b. apply RoadClassification_eqb_fields.
  - intros a b. unfold RoadClassification_neqb. apply negb_true_iff.
Qed.

(** X4: [ToString] renders two classifications alike exactly when
    [operator==] holds them equal. *)
Theorem ToString_eq_iff (a b : RoadClassification) :
  ToString a = ToString b <-> RoadClassification_eqb a b = true.
Proof.
  rewrite RoadClassification_eqb_fields. unfold ToString, to_string.
  destruct a as [ma la ia pa na], b as [mb lb ib pb nb]. simpl.
  split.
  - destruct ma, la, ia, mb, lb, ib; intros Heq; cbv [String.append] in Heq;
      try (exfalso; congruence);
      (repeat split; apply (inj pretty); congruence).
  - intros (-> & -> & -> & ->). reflexivity.
Qed.

(** X5: [canBeSeenAsFork] holds exactly when the priorities differ by at
    most one; it is reflexive and symmetric, and it is not transitive. *)
Theorem canBeSeenAsFork_tolerance :
  (forall a b, canBeSeenAsFork a b = true <->
     (GetPriority b - 1 <= GetPriority a <= GetPriority b + 1)%Z)
  /\ (forall a, canBeSeenAsFork a a = true)
  /\ (forall a b, canBeSeenAsFork a b = canBeSeenAsFork b a)
  /\ ~ (forall a b c, canBeSeenAsFork a b = true -> canBeSeenAsFork b c = true ->
          canBeSeenAsFork a c = true).
Proof.
  split; [| split; [| split]].
  - intros a b. unfold canBeSeenAsFork. rewrite Z.leb_le. lia.
  - intros a. unfold canBeSeenAsFork. rewrite Z.sub_diag. reflexivity.
  - apply canBeSeenAsFork_sym.
  - intros Htrans.
    specialize (Htrans motorway_road motorway_ramp trunk_road eq_refl eq_refl).
    discriminate Htrans.
Qed.

(** On a range sorted in ascending order, [value1] lands before [value2]
    exactly when some element separates them. *)
Lemma upper_bound_lt_iff (range : list Z) (p q : Z) :
  StronglySorted Z.le range ->
  (upper_bound range p < upper_bound range q)%nat <->
  exists d, d ∈ range /\ (p < d <= q)%Z.
Proof.
  induction 1 as [| d rest Hsorted IH Hall]; simpl.
  - split; [lia |]. intros (d & Hin & _). inversion Hin.
  - rewrite Forall_forall in Hall.
    destruct (Z.ltb_spec p d) as [Hp | Hp], (Z.ltb_spec q d) as [Hq | Hq].
    + split; [lia |]. intros (e & Hin & He).
      apply elem_of_cons in Hin as [-> | Hin]; [lia |].
      specialize (Hall _ Hin). lia.
    + split; [| lia]. intros _. exists d. split; [left | lia].
    + split; [lia |]. intros (e & Hin & He). lia.
    + rewrite <- Nat.succ_lt_mono, IH. split.
      * intros (e & Hin & He). exists e. split; [now right | exact He].
      * intros (e & Hin & He).
        apply elem_of_cons in Hin as [-> | Hin]; [lia |]. eauto.
Qed.

Lemma dividers_sorted : StronglySorted Z.le dividers.
Proof.
  unfold dividers. repeat (constructor; [| repeat constructor; cbv; discriminate]).
  constructor.
Qed.

(** X6: [strictlyLess lhs rhs] holds exactly when one of the six dividers
    lies above the priority of [lhs] and not above that of [rhs]; so it
    implies that [lhs] has the numerically smaller priority. *)
Theorem strictlyLess_iff_divider_between (lhs rhs : RoadClassification) :
  (strictlyLess lhs rhs = true <->
     exists d, d ∈ dividers /\ (GetPriority lhs < d <= GetPriority rhs)%Z)
  /\ (strictlyLess lhs rhs = true -> (GetPriority lhs < GetPriority rhs)%Z).
Proof.
  assert (strictlyLess lhs rhs = true <->
          exists d, d ∈ dividers /\ (GetPriority lhs < d <= GetPriority rhs)%Z) as Hiff.
  { rewrite strictlyLess_positions. apply upper_bound_lt_iff, dividers_sorted. }
  split; [exact Hiff |].
  intros Hless. apply Hiff in Hless as (d & _ & Hd). lia.
Qed.

(** X7: [strictlyLess] is a strict weak ordering: irreflexive, asymmetric,
    transitive, and being unordered either way is transitive. *)
Theorem strictlyLess_strict_weak_order :
  (forall a, strictlyLess a a = false)
  /\ (forall a b, strictlyLess a b = true -> strictlyLess b a = false)
  /\ (forall a b c, strictlyLess a b = true -> strictlyLess b c = true ->
        strictlyLess a c = true)
  /\ (forall a b c,
        strictlyLess a b = false -> strictlyLess b a = false ->
        strictlyLess b c = false -> strictlyLess c b = false ->
        strictlyLess a c = false /\ strictlyLess c a = false).
Proof.
  unfold strictlyLess. rewrite firstn_dividers.
  split; [| split; [| split]].
  - intros a. apply Nat.ltb_irrefl.
  - intros a b. rewrite Nat.ltb_lt, Nat.ltb_ge. lia.
  - intros a b c. rewrite !Nat.ltb_lt. lia.
  - intros a b c. rewrite !Nat.ltb_ge. lia.
Qed.

(** X8: a link that fits its road has the priority right after the road's,
    can be seen as a fork with it, and the relation never holds the other
    way round. *)
Theorem isLinkTo_adjacent (link road : RoadClassification) :
  isLinkTo link road = true ->
  GetPriority link = (GetPriority road + 1)%Z
  /\ canBeSeenAsFork link road = true
  /\ canBeSeenAsFork road link = true
  /\ isLinkTo road link = false.
Proof.
  unfold isLinkTo at 1. intros Hlink.
  destruct (IsLinkClass link) eqn:Hl, (IsLinkClass road) eqn:Hr; simpl in Hlink;
    try discriminate.
  assert (GetPriority link = (GetPriority road + 1)%Z) as Hadjacent.
  { unfold RoadPriorityClass.MOTORWAY_LINK, RoadPriorityClass.MOTORWAY,
      RoadPriorityClass.TRUNK_LINK, RoadPriorityClass.TRUNK,
      RoadPriorityClass.PRIMARY_LINK, RoadPriorityClass.PRIMARY,
      RoadPriorityClass.SECONDARY_LINK, RoadPriorityClass.SECONDARY,
      RoadPriorityClass.TERTIARY_LINK, RoadPriorityClass.TERTIARY in Hlink.
    repeat match type of Hlink with
           | (if (?x =? ?y)%Z then _ else _) = true =>
               destruct (Z.eqb_spec x y)
           end;
      try discriminate; apply Z.eqb_eq in Hlink; lia. }
  split; [exact Hadjacent |].
  unfold canBeSeenAsFork, isLinkTo. rewrite Hl, Hr, Hadjacent. simpl.
  repeat split; apply Z.leb_le; lia.
Qed.

Lemma isLinkTo_adjacent_witness :
  isLinkTo trunk_link_road trunk_road = true
  /\ GetPriority trunk_link_road = (GetPriority trunk_road + 1)%Z
  /\ isLinkTo trunk_road trunk_link_road = false.
Proof.
  assert (isLinkTo trunk_link_road trunk_road = true) as Hlink by reflexivity.
  destruct (isLinkTo_adjacent trunk_link_road trunk_road Hlink) as (Hp & _ & _ & Hback).
  exact (conj Hlink (conj Hp Hback)).
Defined.

(** X9: every heuristic answers alike on arguments that [operator==]
    holds equal; in particular none of them looks at the lane count. *)
Theorem heuristics_respect_eqb (factor : Q) (i i' o o' c c' : RoadClassification) :
  RoadClassification_eqb i i' = true ->
  RoadClassification_eqb o o' = true ->
  RoadClassification_eqb c c' = true ->
  canBeSeenAsFork i o = canBeSeenAsFork i' o'
  /\ strictlyLess i o = strictlyLess i' o'
  /\ isLinkTo i o = isLinkTo i' o'
  /\ obviousByRoadClass factor i o c = obviousByRoadClass factor i' o' c'
  /\ obviousByRoadClassOld factor i o c = obviousByRoadClassOld factor i' o' c'.
Proof.
  intros Hi Ho Hc.
  apply RoadClassification_eqb_fields in Hi as (Hi1 & Hi2 & Hi3 & Hi4).
  apply RoadClassification_eqb_fields in Ho as (Ho1 & Ho2 & Ho3 & Ho4).
  apply RoadClassification_eqb_fields in Hc as (Hc1 & Hc2 & Hc3 & Hc4).
  destruct i, i', o, o', c, c'. simpl in *. subst.
  repeat split.
Qed.

Lemma heuristics_respect_eqb_witness :
  RoadClassification_eqb residential_road (SetNumberOfLanes 4 residential_road) = true
  /\ obviousByRoadClass sample_factor residential_road residential_road service_road
     = obviousByRoadClass sample_factor (SetNumberOfLanes 4 residential_road)
         (SetNumberOfLanes 3 residential_road) (SetNumberOfLanes 2 service_road).
Proof.
  split; [reflexivity |].
  apply (heuristics_respect_eqb sample_factor
           residential_road (SetNumberOfLanes 4 residential_road)
           residential_road (SetNumberOfLanes 3 residential_road)
           service_road (SetNumberOfLanes 2 service_road)); reflexivity.
Defined.

(** X10: when neither candidate is link-class, the current and the legacy
    heuristic give the same answer, whatever [in] is. *)
Theorem obviousByRoadClass_agrees_with_old
    (factor : Q) (in_classification obvious_candidate compare_candidate : RoadClassification) :
  IsLinkClass obvious_candidate = false ->
  IsLinkClass compare_candidate = false ->
  obviousByRoadClass factor in_classification obvious_candidate compare_candidate
  = obviousByRoadClassOld factor in_classification obvious_candidate compare_candidate.
Proof.
  intros Ho Hc. unfold obviousByRoadClass, obviousByRoadClassOld.
  assert (IsRampClass compare_candidate = false) as Hramp.
  { unfold IsRampClass. unfold IsLinkClass in Hc. rewrite Hc. apply andb_false_r. }
  rewrite Ho, Hc, Hramp. simpl. rewrite !andb_false_r, !andb_true_r. reflexivity.
Qed.

Lemma obviousByRoadClass_agrees_with_old_witness :
  IsLinkClass residential_road = false
  /\ IsLinkClass service_road = false
  /\ obviousByRoadClass sample_factor motorway_road residential_road service_road
     = obviousByRoadClassOld sample_factor motorway_road residential_road service_road.
Proof.
  do 2 (split; [reflexivity |]).
  apply (obviousByRoadClass_agrees_with_old sample_factor
           motorway_road residential_road service_road); reflexivity.
Defined.

(** X11: coming from a road that is not motorway-class, a ramp as the
    compared candidate is passed obviously only for the low-priority
    reason: priorities never decide it. *)
Theorem obviousByRoadClass_ramp_off_motorway
    (factor : Q) (in_classification obvious_candidate compare_candidate : RoadClassification) :
  IsMotorwayClass in_classification = false ->
  IsRampClass compare_candidate = true ->
  obviousByRoadClass factor in_classification obvious_candidate compare_candidate
  = negb (IsLowPriorityRoadClass obvious_candidate)
    && negb (IsLowPriorityRoadClass in_classification)
    && IsLowPriorityRoadClass compare_candidate.
Proof.
  intros Hin Hramp. unfold obviousByRoadClass.
  rewrite Hin, Hramp. simpl. rewrite !andb_false_r. reflexivity.
Qed.

Lemma obviousByRoadClass_ramp_off_motorway_witness :
  IsMotorwayClass trunk_road = false
  /\ IsRampClass motorway_ramp = true
  /\ obviousByRoadClass sample_factor trunk_road trunk_road motorway_ramp = false.
Proof.
  do 2 (split; [reflexivity |]).
  apply (obviousByRoadClass_ramp_off_motorway sample_factor
           trunk_road trunk_road motorway_ramp); reflexivity.
Defined.

(** X12: in the legacy heuristic a continuation onto a classification
    other than the one arrived on ([in != obvious_candidate]) is obvious
    only for the low-priority reason; against a compared candidate that is
    not ignorable it never is. *)
Theorem obviousByRoadClassOld_other_class
    (factor : Q) (in_classification obvious_candidate compare_candidate : RoadClassification) :
  RoadClassification_neqb in_classification obvious_candidate = true ->
  obviousByRoadClassOld factor in_classification obvious_candidate compare_candidate
  = negb (IsLowPriorityRoadClass obvious_candidate)
    && negb (IsLowPriorityRoadClass in_classification)
    && IsLowPriorityRoadClass compare_candidate
  /\ (IsLowPriorityRoadClass compare_candidate = false ->
      obviousByRoadClassOld factor in_classification obvious_candidate compare_candidate
      = false).
Proof.
  unfold RoadClassification_neqb. intros Hne%negb_true_iff.
  rewrite obviousByRoadClassOld_unfold, Hne, andb_false_r. simpl.
  split; [reflexivity |]. intros ->. apply andb_false_r.
Qed.

Lemma obviousByRoadClassOld_other_class_witness :
  RoadClassification_neqb trunk_road residential_road = true
  /\ obviousByRoadClassOld sample_factor trunk_road residential_road service_road = true
  /\ obviousByRoadClassOld sample_factor trunk_road residential_road motorway_road = false.
Proof.
  assert (RoadClassification_neqb trunk_road residential_road = true) as Hne by reflexivity.
  destruct (obviousByRoadClassOld_other_class sample_factor
              trunk_road residential_road service_road Hne) as [Hlow _].
  destruct (obviousByRoadClassOld_other_class sample_factor
              trunk_road residential_road motorway_road Hne) as [_ Hnever].
  split; [exact Hne |]. split; [rewrite Hlow; reflexivity | apply Hnever; reflexivity].
Defined.

(** X13: in both heuristics an ignorable compared candidate never stands
    in the way: when neither [in] nor the obvious candidate is ignorable
    and the compared candidate is, the answer is [true]. *)
Theorem obvious_over_low_priority
    (factor : Q) (in_classification obvious_candidate compare_candidate : RoadClassification) :
  IsLowPriorityRoadClass in_classification = false ->
  IsLowPriorityRoadClass obvious_candidate = false ->
  IsLowPriorityRoadClass compare_candidate = true ->
  obviousByRoadClass factor in_classification obvious_candidate compare_candidate = true
  /\ obviousByRoadClassOld factor in_classification obvious_candidate compare_candidate = true.
Proof.
  intros Hin Ho Hc. unfold obviousByRoadClass, obviousByRoadClassOld.
  rewrite Hin, Ho, Hc. simpl. rewrite !orb_true_r.
  split; [| reflexivity].
  repeat match goal with |- (if ?b then true else _) = true => destruct b; [reflexivity |] end.
  reflexivity.
Qed.

Lemma obvious_over_low_priority_witness :
  IsLowPriorityRoadClass trunk_road = false
  /\ IsLowPriorityRoadClass residential_road = false
  /\ IsLowPriorityRoadClass service_road = true
  /\ obviousByRoadClass sample_factor trunk_road residential_road service_road = true
  /\ obviousByRoadClassOld sample_factor trunk_road residential_road service_road = true.
Proof.
  do 3 (split; [reflexivity |]).
  apply (obvious_over_low_priority sample_factor trunk_road residential_road service_road);
    reflexivity.
Defined.

(* ===================================================================== *)
(** ** Further properties of the dispatcher *)
(* ===================================================================== *)

Section RegistryProperties.

Context {PluginParameters : Type}.
Variable stock_content : http.status_type -> string.

Implicit Types (d : OSRM PluginParameters) (p q : plugin_ptr).
Implicit Types (plugin : BasePlugin PluginParameters).
Implicit Types (reply : http.Reply) (rp : RouteParameters PluginParameters).

(** The two ways a registration can run through. *)
Lemma RegisterPlugin_Some_inv d p d' :
  RegisterPlugin p d = Some d' ->
  exists plugin,
    objects d !! p = Some plugin
    /\ log d' = log d ++ ["loaded plugin: " +:+ GetDescriptor plugin]
    /\ handled d' = handled d
    /\ ( (plugin_map d !! GetDescriptor plugin = None
          /\ plugin_map d' = <[GetDescriptor plugin := p]> (plugin_map d)
          /\ objects d' = objects d)
         \/ (exists old, plugin_map d !! GetDescriptor plugin = Some old
              /\ old <> p
              /\ is_Some (objects d !! old)
              /\ plugin_map d' = plugin_map d
              /\ objects d' = delete old (objects d)) ).
Proof.
  intros Hrun.
  destruct (objects d !! p) as [plugin |] eqn:Hlive;
    [| unfold RegisterPlugin, deref in Hrun; rewrite Hlive in Hrun; discriminate].
  exists plugin. split; [reflexivity |].
  destruct (plugin_map d !! GetDescriptor plugin) as [old |] eqn:Hentry.
  - destruct (RegisterPlugin_taken _ _ _ _ _ Hlive Hentry Hrun) as (Hmap & Hobj & Hold & Hne).
    revert Hrun. unfold RegisterPlugin, deref. rewrite Hlive. simpl. rewrite Hentry.
    unfold delete_plugin. simpl. destruct Hold as [victim Hvictim]. rewrite Hvictim. simpl.
    rewrite lookup_delete_ne by exact Hne. rewrite Hlive. simpl. intros [= <-]. simpl.
    repeat split. right. exists old. rewrite (emplace_present _ _ _ _ Hentry). eauto 10.
  - rewrite (RegisterPlugin_fresh _ _ _ Hlive Hentry) in Hrun. injection Hrun as <-.
    simpl. repeat split. left. repeat split.
Qed.

(** X14: a registration that runs through writes exactly one log line
    naming the descriptor, calls no handler, keeps every entry the registry
    already had, touches no other key, and leaves the descriptor
    registered. *)
Theorem RegisterPlugin_only_adds d p d' :
  RegisterPlugin p d = Some d' ->
  exists plugin,
    objects d !! p = Some plugin
    /\ log d' = log d ++ ["loaded plugin: " +:+ GetDescriptor plugin]
    /\ handled d' = handled d
    /\ (forall key q, plugin_map d !! key = Some q -> plugin_map d' !! key = Some q)
    /\ (forall key, key <> GetDescriptor plugin -> plugin_map d' !! key = plugin_map d !! key)
    /\ is_Some (plugin_map d' !! GetDescriptor plugin).
Proof.
  intros Hrun.
  destruct (RegisterPlugin_Some_inv _ _ _ Hrun) as (plugin & Hlive & Hlog & Hcalls & Hcases).
  exists plugin. do 3 (split; [assumption |]).
  destruct Hcases as [(Hfree & -> & _) | (old & Htaken & _ & _ & -> & _)].
  - repeat split.
    + intros key q Hkey. rewrite lookup_insert_ne; [exact Hkey | congruence].
    + intros key Hne. now rewrite lookup_insert_ne.
    + rewrite lookup_insert_eq. eauto.
  - repeat split; eauto.
Qed.

(** X15: registering a pointer to an object that is not alive is
    undefined, and so is registering the same object a second time. *)
Theorem RegisterPlugin_undefined d p :
  (objects d !! p = None -> RegisterPlugin p d = None)
  /\ (forall d1, RegisterPlugin p d = Some d1 -> RegisterPlugin p d1 = None).
Proof.
  split.
  - intros Hdead. unfold RegisterPlugin, deref. now rewrite Hdead.
  - intros d1 Hfirst.
    destruct (RegisterPlugin_Some_inv _ _ _ Hfirst)
      as (plugin & Hlive & _ & _ & [(Hfree & Hmap & Hobj) | (old & Htaken & Hne & _ & Hmap & Hobj)]).
    + unfold RegisterPlugin, deref. rewrite Hobj, Hlive. simpl.
      rewrite Hmap, lookup_insert_eq. unfold delete_plugin. simpl.
      rewrite Hobj, Hlive. simpl. now rewrite lookup_delete_eq.
    + unfold RegisterPlugin, deref. rewrite Hobj, lookup_delete_ne, Hlive by exact Hne.
      simpl. rewrite Hmap, Htaken. unfold delete_plugin. simpl.
      now rewrite Hobj, lookup_delete_eq.
Qed.

(** X16: after a plugin has been registered under a free descriptor, a
    query for that descriptor is answered by the handler of that plugin,
    on the reply with its status set to ok. *)
Theorem RegisterPlugin_then_RunQuery d p plugin rp reply :
  objects d !! p = Some plugin ->
  plugin_map d !! GetDescriptor plugin = None ->
  service rp = GetDescriptor plugin ->
  exists d1,
    RegisterPlugin p d = Some d1
    /\ RunQuery stock_content rp reply d1
       = Some (HandleRequest plugin rp (http.set_status http.ok reply), note_call p d1).
Proof.
  intros Hlive Hfree Hservice.
  eexists. split; [apply (RegisterPlugin_fresh _ _ _ Hlive Hfree) |].
  unfold RunQuery, deref. simpl. rewrite Hservice, lookup_insert_eq. simpl.
  rewrite Hlive. reflexivity.
Qed.

(** X17: a registration that runs through keeps a consistent registry
    consistent exactly when the descriptor was free; under a taken
    descriptor the entry is left pointing to a deleted object. *)
Theorem RegisterPlugin_consistent_iff_free d p plugin d' :
  registry_consistent d ->
  objects d !! p = Some plugin ->
  RegisterPlugin p d = Some d' ->
  (registry_consistent d' <-> plugin_map d !! GetDescriptor plugin = None).
Proof.
  intros Hcons Hlive Hrun.
  destruct (RegisterPlugin_Some_inv _ _ _ Hrun)
    as (plugin' & Hlive' & _ & _ & Hcases).
  assert (plugin' = plugin) as -> by congruence.
  destruct Hcases as [(Hfree & Hmap & Hobj) | (old & Htaken & Hne & _ & Hmap & Hobj)].
  - split; [intros _; exact Hfree |]. intros _ key q.
    rewrite Hmap, Hobj. destruct (decide (key = GetDescriptor plugin)) as [-> | Hkey].
    + rewrite lookup_insert_eq. intros [= <-]. eauto.
    + rewrite lookup_insert_ne by congruence. apply Hcons.
  - split; [| congruence]. intros Hcons'.
    destruct (Hcons' (GetDescriptor plugin) old) as (victim & Hvictim & _).
    + now rewrite Hmap.
    + rewrite Hobj, lookup_delete_eq in Hvictim. discriminate.
Qed.




End RegistryProperties.

(** The sample dispatchers are consistent. *)
Lemma fresh_dispatcher_consistent : registry_consistent fresh_dispatcher.
Proof. intros key p Hentry. simpl in Hentry. rewrite lookup_empty in Hentry. discriminate. Qed.

Lemma spy_dispatcher_consistent : registry_consistent spy_dispatcher.
Proof.
  intros key p Hentry. simpl in Hentry.
  apply lookup_insert_Some in Hentry as [[<- <-] | [_ Hentry]].
  - exists spy_plugin. split; reflexivity.
  - rewrite lookup_empty in Hentry. discriminate.
Qed.

Lemma RegisterPlugin_only_adds_witness :
  exists (d' : OSRM unit) (plugin : BasePlugin unit),
    RegisterPlugin 1%positive fresh_dispatcher = Some d'
    /\ objects fresh_dispatcher !! 1%positive = Some plugin
    /\ log d' = log fresh_dispatcher ++ ["loaded plugin: " +:+ GetDescriptor plugin]
    /\ handled d' = handled fresh_dispatcher
    /\ (forall key q, plugin_map fresh_dispatcher !! key = Some q ->
          plugin_map d' !! key = Some q)
    /\ (forall key, key <> GetDescriptor plugin ->
          plugin_map d' !! key = plugin_map fresh_dispatcher !! key)
    /\ is_Some (plugin_map d' !! GetDescriptor plugin).
Proof.
  assert (RegisterPlugin 1%positive fresh_dispatcher
          = Some (set_plugin_map (<["hello" := 1%positive]> ∅)
                    (write_log "loaded plugin: hello" fresh_dispatcher))) as Hrun
    by (vm_compute; reflexivity).
  destruct (RegisterPlugin_only_adds _ _ _ Hrun) as (plugin & Hfacts).
  exact (ex_intro _ _ (ex_intro _ plugin (conj Hrun Hfacts))).
Defined.

Lemma RegisterPlugin_then_RunQuery_witness :
  objects fresh_dispatcher !! 1%positive = Some first_hello
  /\ plugin_map fresh_dispatcher !! GetDescriptor first_hello = None
  /\ exists d1 : OSRM unit,
       RegisterPlugin 1%positive fresh_dispatcher = Some d1
       /\ RunQuery sample_stock_content {| service := "hello"; parameters := tt |} stale_reply d1
          = Some ({| http.status := http.ok; http.content := "first" |},
                  note_call 1%positive d1).
Proof.
  assert (objects fresh_dispatcher !! 1%positive = Some first_hello) as Hlive
    by (vm_compute; reflexivity).
  assert (plugin_map fresh_dispatcher !! GetDescriptor first_hello = None) as Hfree
    by (vm_compute; reflexivity).
  split; [exact Hlive |]. split; [exact Hfree |].
  exact (RegisterPlugin_then_RunQuery sample_stock_content fresh_dispatcher 1%positive
           first_hello {| service := "hello"; parameters := tt |} stale_reply
           Hlive Hfree eq_refl).
Defined.

Lemma RegisterPlugin_consistent_iff_free_witness :
  exists d' : OSRM unit,
    RegisterPlugin 1%positive fresh_dispatcher = Some d'
    /\ (registry_consistent d' <-> plugin_map fresh_dispatcher !! "hello" = None).
Proof.
  eexists. split; [vm_compute; reflexivity |].
  apply (RegisterPlugin_consistent_iff_free fresh_dispatcher 1%positive first_hello).
  - exact fresh_dispatcher_consistent.
  - vm_compute; reflexivity.
  - vm_compute; reflexivity.
Defined.


(* ===================================================================== *)
(** ** Destruction *)
(* ===================================================================== *)

Section DestructionProperties.

Context {PluginParameters : Type}.

Implicit Types (d : OSRM PluginParameters) (p q : plugin_ptr).
Implicit Types (l : list (string * plugin_ptr)).

(** Deleting the objects of a list of entries whose pointers are alive and
    pairwise different runs through and removes exactly those objects. *)
Lemma delete_entries_alive l d :
  NoDup l.*2 ->
  (forall e, e ∈ l -> is_Some (objects d !! e.2)) ->
  exists d',
    foldr (fun entry acc => acc ≫= delete_plugin entry.2) (Some d) l = Some d'
    /\ plugin_map d' = plugin_map d
    /\ log d' = log d
    /\ handled d' = handled d
    /\ forall q, objects d' !! q = if decide (q ∈ l.*2) then None else objects d !! q.
Proof.
  induction l as [| e l IH]; intros Hnodup Halive.
  - exists d. simpl. repeat split.
  - rewrite fmap_cons in Hnodup. apply NoDup_cons in Hnodup as [Hfirst Hnodup].
    destruct (IH Hnodup) as (d1 & Hfold & Hmap & Hlog & Hcalls & Hobj).
    { intros e' He'. apply Halive. now right. }
    simpl. rewrite Hfold. simpl. unfold delete_plugin.
    destruct (Halive e) as [victim Hvictim]; [now left |].
    rewrite Hobj, decide_False, Hvictim by exact Hfirst.
    eexists. split; [reflexivity |]. simpl. repeat split; try assumption.
    intros q. destruct (decide (q = e.2)) as [-> | Hne].
    + rewrite lookup_delete_eq, decide_True; [reflexivity | now left].
    + rewrite lookup_delete_ne, Hobj by congruence.
      destruct (decide (q ∈ l.*2)) as [Hin | Hout].
      * rewrite decide_True; [reflexivity | now right].
      * rewrite decide_False; [reflexivity |].
        intros [Heq | Hin]%elem_of_cons; [congruence | contradiction].
Qed.

(** Deleting never brings an object back. *)
Lemma delete_entries_dead l d d' q :
  foldr (fun entry acc => acc ≫= delete_plugin entry.2) (Some d) l = Some d' ->
  objects d !! q = None -> objects d' !! q = None.
Proof.
  revert d'. induction l as [| e l IH]; simpl; intros d' Hfold Hdead.
  - injection Hfold as <-. exact Hdead.
  - destruct (foldr _ (Some d) l) as [d1 |] eqn:Hrest; [| discriminate].
    simpl in Hfold. unfold delete_plugin in Hfold.
    destruct (objects d1 !! e.2); [| discriminate]. injection Hfold as <-. simpl.
    destruct (decide (q = e.2)) as [-> | Hne].
    + apply lookup_delete_eq.
    + rewrite lookup_delete_ne by congruence. now apply IH.
Qed.

Lemma delete_entries_dangling l d key p :
  (key, p) ∈ l -> objects d !! p = None ->
  foldr (fun entry acc => acc ≫= delete_plugin entry.2) (Some d) l = None.
Proof.
  intros Hin Hdead. induction l as [| e l IH]; [inversion Hin |]. simpl.
  destruct (foldr _ (Some d) l) as [d1 |] eqn:Hrest; [| reflexivity]. simpl.
  apply elem_of_cons in Hin as [<- | Hin].
  - unfold delete_plugin. simpl.
    now rewrite (delete_entries_dead _ _ _ _ Hrest Hdead).
  - specialize (IH Hin). discriminate.
Qed.

Lemma registry_pointers_NoDup d :
  registry_consistent d -> NoDup (map_to_list (plugin_map d)).*2.
Proof.
  intros Hcons. apply NoDup_fmap_2_strong; [| apply NoDup_map_to_list].
  intros [k1 p1] [k2 p2] H1%elem_of_map_to_list H2%elem_of_map_to_list Heq.
  simpl in Heq. subst p2.
  destruct (Hcons _ _ H1) as (plugin1 & Hlive1 & <-).
  destruct (Hcons _ _ H2) as (plugin2 & Hlive2 & <-).
  congruence.
Qed.

Lemma destroy_consistent_run d :
  registry_consistent d ->
  exists d',
    destroy d = Some d'
    /\ plugin_map d' = plugin_map d
    /\ (forall key p, plugin_map d !! key = Some p -> objects d' !! p = None)
    /\ (forall q, (forall key, plugin_map d !! key <> Some q) ->
          objects d' !! q = objects d !! q).
Proof.
  intros Hcons.
  destruct (delete_entries_alive (map_to_list (plugin_map d)) d) as (d' & Hrun & Hmap & _ & _ & Hobj).
  - now apply registry_pointers_NoDup.
  - intros [key p] Hin%elem_of_map_to_list.
    destruct (Hcons _ _ Hin) as (plugin & Hlive & _). simpl. eauto.
  - exists d'. split; [exact Hrun |]. split; [exact Hmap |]. split.
    + intros key p Hentry. rewrite Hobj, decide_True; [reflexivity |].
      apply list_elem_of_fmap. exists (key, p). split; [reflexivity |].
      now apply elem_of_map_to_list.
    + intros q Hfree. rewrite Hobj, decide_False; [reflexivity |].
      intros ([key p] & -> & Hin%elem_of_map_to_list)%list_elem_of_fmap.
      exact (Hfree key Hin).
Qed.

Lemma destroy_consistent_full d :
  registry_consistent d ->
  exists d',
    destroy d = Some d'
    /\ (forall key p, plugin_map d !! key = Some p -> objects d' !! p = None)
    /\ (forall q, (forall key, plugin_map d !! key <> Some q) ->
          objects d' !! q = objects d !! q)
    /\ (registry_owns_all d -> objects d' = ∅).
Proof.
  intros Hcons.
  destruct (destroy_consistent_run d Hcons) as (d' & Hrun & _ & Hgone & Hkept).
  exists d'. repeat (split; [assumption |]).
  intros Howns. apply map_eq. intros q. rewrite lookup_empty.
  destruct (objects d !! q) as [plugin |] eqn:Hlive.
  - apply (Hgone (GetDescriptor plugin)). now apply Howns.
  - rewrite Hkept; [exact Hlive |].
    intros key Hentry. destruct (Hcons _ _ Hentry) as (plugin & Halive & _). congruence.
Qed.

(** X20: on a consistent registry the destructor runs through; it deletes
    the object of every entry, once, and no other object; when every live
    plugin object is in the registry, none is left. *)
Theorem destroy_consistent d :
  registry_consistent d ->
  exists d',
    destroy d = Some d'
    /\ (forall key p, plugin_map d !! key = Some p -> objects d' !! p = None)
    /\ (forall q, (forall key, plugin_map d !! key <> Some q) ->
          objects d' !! q = objects d !! q)
    /\ (registry_owns_all d -> objects d' = ∅).
Proof. exact (destroy_consistent_full d). Qed.

(** X21: when some entry of the registry points to an object that is no
    longer alive, the destructor deletes it a second time: undefined. *)
Theorem destroy_undefined_on_dangling d key p :
  plugin_map d !! key = Some p ->
  objects d !! p = None ->
  destroy d = None.
Proof.
  intros Hentry Hdead. unfold destroy.
  apply (delete_entries_dangling _ _ key p); [| exact Hdead].
  now apply elem_of_map_to_list.
Qed.

End DestructionProperties.

Lemma destroy_consistent_witness :
  exists d' : OSRM unit,
    destroy spy_dispatcher = Some d'
    /\ (forall key p, plugin_map spy_dispatcher !! key = Some p -> objects d' !! p = None)
    /\ (forall q, (forall key, plugin_map spy_dispatcher !! key <> Some q) ->
          objects d' !! q = objects spy_dispatcher !! q)
    /\ (registry_owns_all spy_dispatcher -> objects d' = ∅).
Proof. exact (destroy_consistent spy_dispatcher spy_dispatcher_consistent). Defined.

(* ===================================================================== *)
(** ** Construction *)
(* ===================================================================== *)

Section ConstructionProperties.

Context {PluginParameters : Type}.
Variables ServerPaths DataFacade : Type.
Variable InternalDataFacade : ServerPaths -> DataFacade.
Variable SharedDataFacade : ServerPaths -> DataFacade.
Variable HelloWorldPlugin : BasePlugin PluginParameters.
Variable LocatePlugin : DataFacade -> BasePlugin PluginParameters.
Variable NearestPlugin : DataFacade -> BasePlugin PluginParameters.
Variable TimestampPlugin : DataFacade -> BasePlugin PluginParameters.
Variable ViaRoutePlugin : DataFacade -> BasePlugin PluginParameters.
Variable allocate : gmap plugin_ptr (BasePlugin PluginParameters) -> plugin_ptr.

Implicit Types (d : OSRM PluginParameters) (plugin : BasePlugin PluginParameters).

Lemma OSRM_empty_consistent :
  registry_consistent (@OSRM_empty PluginParameters)
  /\ registry_owns_all (@OSRM_empty PluginParameters).
Proof.
  split.
  - intros key p Hentry. simpl in Hentry. rewrite lookup_empty in Hentry. discriminate.
  - intros p plugin Hlive. simpl in Hlive. rewrite lookup_empty in Hlive. discriminate.
Qed.

(** Creating a plugin and registering it under a free descriptor. *)
Lemma register_new_ok plugin d :
  allocator_fresh allocate ->
  registry_consistent d ->
  registry_owns_all d ->
  plugin_map d !! GetDescriptor plugin = None ->
  exists d1,
    RegisterPlugin (new_plugin allocate plugin d).1 (new_plugin allocate plugin d).2 = Some d1
    /\ plugin_map d1 = <[GetDescriptor plugin := allocate (objects d)]> (plugin_map d)
    /\ size (plugin_map d1) = S (size (plugin_map d))
    /\ log d1 = log d ++ ["loaded plugin: " +:+ GetDescriptor plugin]
    /\ handled d1 = handled d
    /\ registry_consistent d1
    /\ registry_owns_all d1
    /\ registered d1 plugin
    /\ (forall plugin', registered d plugin' -> registered d1 plugin').
Proof.
  intros Hfresh Hcons Howns Hfree.
  set (p := allocate (objects d)).
  assert (objects d !! p = None) as Hnew by apply Hfresh.
  eexists. split.
  { apply RegisterPlugin_fresh; simpl; [apply lookup_insert_eq | exact Hfree]. }
  simpl. fold p.
  split; [reflexivity |].
  split; [now apply map_size_insert_None |].
  split; [reflexivity |].
  split; [reflexivity |].
  split; [| split; [| split]].
  - intros key q. simpl.
    destruct (decide (key = GetDescriptor plugin)) as [-> | Hkey].
    + rewrite lookup_insert_eq. intros [= <-]. exists plugin.
      split; [apply lookup_insert_eq | reflexivity].
    + rewrite lookup_insert_ne by congruence. intros Hentry.
      destruct (Hcons _ _ Hentry) as (plugin' & Hlive & Hdesc).
      exists plugin'. split; [| exact Hdesc].
      rewrite lookup_insert_ne; [exact Hlive | congruence].
  - intros q plugin'. simpl.
    destruct (decide (q = p)) as [-> | Hq].
    + rewrite lookup_insert_eq. intros [= <-]. apply lookup_insert_eq.
    + rewrite lookup_insert_ne by congruence. intros Hlive.
      pose proof (Howns _ _ Hlive) as Hentry.
      rewrite lookup_insert_ne; [exact Hentry | congruence].
  - exists p. simpl. split; apply lookup_insert_eq.
  - intros plugin' (q & Hentry & Hlive). exists q. simpl.
    split; rewrite lookup_insert_ne; congruence.
Qed.

(** X22: with an allocator that hands out unused addresses and five
    plugins of pairwise different descriptors, the constructor runs
    through with the facade the flag selects; the registry then holds
    exactly the five plugins, each under its descriptor, it is consistent,
    five log lines were written in the order of registration, no handler
    was called, and the destructor releases every plugin object. *)
Theorem OSRM_new_registers_five (server_paths : ServerPaths) (use_shared_memory : bool) :
  let facade :=
    if negb use_shared_memory then InternalDataFacade server_paths
    else SharedDataFacade server_paths in
  let plugins :=
    [HelloWorldPlugin; LocatePlugin facade; NearestPlugin facade;
     TimestampPlugin facade; ViaRoutePlugin facade] in
  allocator_fresh allocate ->
  NoDup (GetDescriptor <$> plugins) ->
  exists d,
    OSRM_new ServerPaths DataFacade InternalDataFacade SharedDataFacade
      HelloWorldPlugin LocatePlugin NearestPlugin TimestampPlugin ViaRoutePlugin
      allocate server_paths use_shared_memory = Some (facade, d)
    /\ registry_consistent d
    /\ registry_owns_all d
    /\ size (plugin_map d) = 5%nat
    /\ (forall plugin, plugin ∈ plugins -> registered d plugin)
    /\ log d = (fun plugin => "loaded plugin: " +:+ GetDescriptor plugin) <$> plugins
    /\ handled d = []
    /\ exists d', destroy d = Some d' /\ objects d' = ∅.
Proof.
  intros facade plugins Hfresh Hnodup. subst plugins. simpl in Hnodup.
  repeat match type of Hnodup with
         | NoDup (_ :: _) => apply NoDup_cons in Hnodup as [?Hnew Hnodup]
         end.
  rewrite ?not_elem_of_cons in *.
  destruct OSRM_empty_consistent as [Hc0 Ho0].
  destruct (register_new_ok HelloWorldPlugin OSRM_empty Hfresh Hc0 Ho0)
    as (d1 & Hrun1 & Hmap1 & Hsize1 & Hlog1 & Hcalls1 & Hc1 & Ho1 & Hreg1 & _);
    [apply lookup_empty |].
  destruct (register_new_ok (LocatePlugin facade) d1 Hfresh Hc1 Ho1)
    as (d2 & Hrun2 & Hmap2 & Hsize2 & Hlog2 & Hcalls2 & Hc2 & Ho2 & Hreg2 & Hkeep2).
  { rewrite Hmap1. simpl. rewrite lookup_insert_ne by tauto. apply lookup_empty. }
  destruct (register_new_ok (NearestPlugin facade) d2 Hfresh Hc2 Ho2)
    as (d3 & Hrun3 & Hmap3 & Hsize3 & Hlog3 & Hcalls3 & Hc3 & Ho3 & Hreg3 & Hkeep3).
  { rewrite Hmap2, Hmap1. simpl. rewrite !lookup_insert_ne by tauto.
    apply lookup_empty. }
  destruct (register_new_ok (TimestampPlugin facade) d3 Hfresh Hc3 Ho3)
    as (d4 & Hrun4 & Hmap4 & Hsize4 & Hlog4 & Hcalls4 & Hc4 & Ho4 & Hreg4 & Hkeep4).
  { rewrite Hmap3, Hmap2, Hmap1. simpl. rewrite !lookup_insert_ne by tauto.
    apply lookup_empty. }
  destruct (register_new_ok (ViaRoutePlugin facade) d4 Hfresh Hc4 Ho4)
    as (d5 & Hrun5 & Hmap5 & Hsize5 & Hlog5 & Hcalls5 & Hc5 & Ho5 & Hreg5 & Hkeep5).
  { rewrite Hmap4, Hmap3, Hmap2, Hmap1. simpl. rewrite !lookup_insert_ne by tauto.
    apply lookup_empty. }
  exists d5. split.
  { unfold OSRM_new. fold facade. cbv zeta.
    simpl in Hrun1, Hrun2, Hrun3, Hrun4, Hrun5. simpl.
    rewrite Hrun1. simpl. rewrite Hrun2. simpl. rewrite Hrun3. simpl.
    rewrite Hrun4. simpl. rewrite Hrun5. reflexivity. }
  split; [exact Hc5 |]. split; [exact Ho5 |].
  split.
  { rewrite Hsize5, Hsize4, Hsize3, Hsize2, Hsize1. reflexivity. }
  split.
  { intros plugin Hin. repeat apply elem_of_cons in Hin as [-> | Hin]; eauto 10.
    inversion Hin. }
  split.
  { rewrite Hlog5, Hlog4, Hlog3, Hlog2, Hlog1. reflexivity. }
  split.
  { rewrite Hcalls5, Hcalls4, Hcalls3, Hcalls2, Hcalls1. reflexivity. }
  destruct (destroy_consistent_full d5 Hc5) as (d' & Hrun & _ & _ & Hempty).
  exists d'. split; [exact Hrun | exact (Hempty Ho5)].
Qed.

End ConstructionProperties.

Lemma sample_allocate_fresh : allocator_fresh sample_allocate.
Proof.
  intros m. unfold sample_allocate.
  apply (not_elem_of_dom (D := gset plugin_ptr)). apply is_fresh.
Qed.

Lemma OSRM_new_registers_five_witness :
  exists d : OSRM unit,
    OSRM_new unit string (fun _ => "internal") (fun _ => "shared")
      (sample_plugin "hello" "") (sample_plugin "locate") (sample_plugin "nearest")
      (sample_plugin "timestamp") (sample_plugin "viaroute")
      sample_allocate tt false = Some ("internal", d)
    /\ size (plugin_map d) = 5%nat
    /\ registered d (sample_plugin "viaroute" "internal")
    /\ exists d', destroy d = Some d' /\ objects d' = ∅.
Proof.
  destruct (OSRM_new_registers_five unit string (fun _ => "internal") (fun _ => "shared")
              (sample_plugin "hello" "") (sample_plugin "locate") (sample_plugin "nearest")
              (sample_plugin "timestamp") (sample_plugin "viaroute")
              sample_allocate tt false sample_allocate_fresh)
    as (d & Hrun & _ & _ & Hsize & Hreg & _ & _ & Hdestroy).
  - simpl. apply (bool_decide_unpack _). vm_compute. exact I.
  - exists d. split; [exact Hrun |]. split; [exact Hsize |].
    split; [| exact Hdestroy].
    apply Hreg. simpl. repeat (first [left | right]).
Defined.

Lemma destroy_undefined_on_dangling_witness :
  plugin_map dangling_dispatcher !! "hello" = Some 1%positive
  /\ objects dangling_dispatcher !! 1%positive = None
  /\ destroy dangling_dispatcher = None.
Proof.
  assert (plugin_map dangling_dispatcher !! "hello" = Some 1%positive) as Hentry
    by (vm_compute; reflexivity).
  assert (objects dangling_dispatcher !! 1%positive = None) as Hdead
    by (vm_compute; reflexivity).
  exact (conj Hentry (conj Hdead
           (destroy_undefined_on_dangling dangling_dispatcher "hello" 1%positive Hentry Hdead))).
Defined.
